(** * A shallow embedding of [weather_dashboard.py]

    The JSON response of the CWA F-C0032-001 endpoint is modelled by typed
    records carrying exactly the fields that [to_dataframe] reads; the
    transformer is a function in a small error monad whose errors are the
    Python exceptions it can raise.  The Streamlit script around it is an
    event trace. *)

From Stdlib Require Import Ascii String QArith Sorting.Sorted Sorting.Permutation.
From stdpp Require Import base gmap strings list.

Open Scope string_scope.
Open Scope list_scope.

(* ------------------------------------------------------------------ *)
(** ** Data model of the response *)

(** A time slot of a weather element:
    [{"startTime": ..., "endTime": ..., "parameter": {"parameterName": ...}}]. *)
Record TimeSlot := {
  startTime : string;
  endTime : string;
  parameterName : string
}.

(** An entry of [loc["weatherElement"]]: [{"elementName": ..., "time": [...]}]. *)
Record WeatherElement := {
  elementName : string;
  time : list TimeSlot
}.

(** An entry of [data["records"]["location"]]. *)
Record Location := {
  locationName : string;
  weatherElement : list WeatherElement
}.

(** [data]: only [data["records"]["location"]] is read. *)
Record Response := {
  records_location : list Location
}.

(* ------------------------------------------------------------------ *)
(** ** Python exceptions and the error monad *)

Inductive PyError :=
  | KeyError (key : string)      (** [d[key]] on a dict without [key] *)
  | IndexError                   (** [xs[i]] with [i >= len(xs)] *)
  | ParseError (s : string).     (** the [ValueError] of [pd.to_datetime] *)

Inductive result (A : Type) :=
  | Ok (a : A)
  | Err (e : PyError).
Arguments Ok {A} a.
Arguments Err {A} e.

#[global] Instance result_ret : MRet result := fun A a => Ok a.
#[global] Instance result_bind : MBind result := fun A B f m =>
  match m with Ok a => f a | Err e => Err e end.

Definition is_err {A} (r : result A) : bool :=
  match r with Ok _ => false | Err _ => true end.

(** Python's [xs[i]] for [i >= 0]. *)
Definition py_index {A} (xs : list A) (i : nat) : result A :=
  match xs !! i with Some x => Ok x | None => Err IndexError end.

(** Python's [d[k]]. *)
Definition dict_get {V} (d : gmap string V) (k : string) : result V :=
  match d !! k with Some v => Ok v | None => Err (KeyError k) end.

(* ------------------------------------------------------------------ *)
(** ** Row emission (lines 33-55) *)

(** The row dict built at lines 45-54, values still strings. *)
Record RawRow := {
  raw_location : string;
  raw_startTime : string;
  raw_endTime : string;
  raw_PoP : string;
  raw_Wx : string;
  raw_CI : string;
  raw_MinT : string;
  raw_MaxT : string
}.

(** Line 40: [{el["elementName"]: el["time"] for el in loc["weatherElement"]}];
    a later entry with the same name overwrites an earlier one. *)
Definition build_elements (els : list WeatherElement) : gmap string (list TimeSlot) :=
  foldl (fun m el => <[elementName el := time el]> m) ∅ els.

(** [elements[k][i]["parameter"]["parameterName"]]. *)
Definition param (elements : gmap string (list TimeSlot)) (k : string) (i : nat)
  : result string :=
  ts ← dict_get elements k;
  t ← py_index ts i;
  mret (parameterName t).

(** Lines 45-54: the dict literal, its entries evaluated left to right. *)
Definition emit_row (name : string) (elements : gmap string (list TimeSlot))
    (i : nat) (t : TimeSlot) : result RawRow :=
  pop ← param elements "PoP" i;
  wx ← param elements "Wx" i;
  ci ← param elements "CI" i;
  mint ← param elements "MinT" i;
  maxt ← param elements "MaxT" i;
  mret {| raw_location := name; raw_startTime := startTime t;
          raw_endTime := endTime t; raw_PoP := pop; raw_Wx := wx;
          raw_CI := ci; raw_MinT := mint; raw_MaxT := maxt |}.

(** Lines 44-55: [for i, t in enumerate(times)], starting at index [i]. *)
Fixpoint emit_slots (name : string) (elements : gmap string (list TimeSlot))
    (i : nat) (ts : list TimeSlot) : result (list RawRow) :=
  match ts with
  | [] => mret []
  | t :: ts' =>
      row ← emit_row name elements i t;
      rest ← emit_slots name elements (S i) ts';
      mret (row :: rest)
  end.

(** Lines 37-55 for one location. *)
Definition emit_location (loc : Location) : result (list RawRow) :=
  let elements := build_elements (weatherElement loc) in
  times ← dict_get elements "PoP";
  emit_slots (locationName loc) elements 0 times.

(** Lines 34-55: [rows] accumulated over all locations in order. *)
Fixpoint emit_locations (locs : list Location) : result (list RawRow) :=
  match locs with
  | [] => mret []
  | loc :: locs' =>
      rs ← emit_location loc;
      rest ← emit_locations locs';
      mret (rs ++ rest)%list
  end.

Definition emit_rows (data : Response) : result (list RawRow) :=
  emit_locations (records_location data).

(* ------------------------------------------------------------------ *)
(** ** The pandas conversions of lines 60-64 *)

(** A value of a numeric column: a float64 or int64 value, that is a
    rational number or an infinity; NaN is [None]. *)
Inductive Num :=
  | Finite (q : Q)
  | Infinite (negative : bool).

(** [pd.to_datetime(column)] and [pd.to_numeric(column, errors="coerce")].
    Both belong to pandas, not to this program, and both work on a whole
    column: [to_datetime] infers one format from the column's first non-null
    value, reads the empty string and the NaT spellings as missing and
    raises on a value it cannot read; a timestamp is its count of
    nanoseconds since the epoch, [None] is NaT.  [to_numeric] never raises
    and gives NaN where a value does not convert; the values of a column
    share one dtype.  The development holds for every implementation with
    the properties below, which pandas has. *)
Class Pandas := {
  to_datetime : list string -> result (list (option Z));
  to_numeric : list string -> list (option Num);
  (** a converted column has one value per element *)
  to_datetime_length : forall col vs, to_datetime col = Ok vs -> length vs = length col;
  (** a refused column raises a [ValueError] *)
  to_datetime_error : forall col e, to_datetime col = Err e -> exists s, e = ParseError s;
  to_numeric_length : forall col, length (to_numeric col) = length col;
  (** whether an element becomes NaN depends on that element only *)
  to_numeric_nan : forall col i s, col !! i = Some s ->
    (to_numeric col !! i = Some None <-> to_numeric [s] = [None])
}.

(** A decimal digit. *)
Definition digit (c : ascii) : option Z :=
  let n := Ascii.nat_of_ascii c in
  if (48 <=? n)%nat && (n <=? 57)%nat then Some (Z.of_nat n - 48)%Z else None.

(** Exactly [k] digits at the front of [s], read as a number. *)
Fixpoint take_digits (k : nat) (s : string) (acc : Z) : option (Z * string) :=
  match k with
  | O => Some (acc, s)
  | S k' =>
      match s with
      | String c s' => d ← digit c; take_digits k' s' (acc * 10 + d)%Z
      | EmptyString => None
      end
  end.

(** The separator [c] at the front of [s]. *)
Definition expect (c : ascii) (s : string) : option string :=
  match s with
  | String c' s' => if Ascii.eqb c c' then Some s' else None
  | EmptyString => None
  end.

Definition leap_year (y : Z) : bool :=
  ((Z.modulo y 4 =? 0) && negb (Z.modulo y 100 =? 0) || (Z.modulo y 400 =? 0))%Z.

Definition days_in_month (y m : Z) : Z :=
  if (m =? 2)%Z then (if leap_year y then 29 else 28)%Z
  else if (m =? 4)%Z || (m =? 6)%Z || (m =? 9)%Z || (m =? 11)%Z then 30%Z
  else 31%Z.

(** Days from 1970-01-01 to the date [y-m-d] (proleptic Gregorian). *)
Definition days_from_civil (y m d : Z) : Z :=
  let y' := if (m <=? 2)%Z then (y - 1)%Z else y in
  let era := (y' / 400)%Z in
  let yoe := (y' - era * 400)%Z in
  let mp := if (2 <? m)%Z then (m - 3)%Z else (m + 9)%Z in
  let doy := ((153 * mp + 2) / 5 + d - 1)%Z in
  let doe := (yoe * 365 + yoe / 4 - yoe / 100 + doy)%Z in
  (era * 146097 + doe - 719468)%Z.

(** The upstream timestamp format ["YYYY-MM-DD HH:MM:SS"]: a valid date
    and time in the years 1678-2261 (inside the nanosecond range of
    pandas), as nanoseconds since the epoch. *)
Definition parse_timestamp (s : string) : option Z :=
  '(y, s) ← take_digits 4 s 0%Z; s ← expect "-"%char s;
  '(mo, s) ← take_digits 2 s 0%Z; s ← expect "-"%char s;
  '(d, s) ← take_digits 2 s 0%Z; s ← expect " "%char s;
  '(h, s) ← take_digits 2 s 0%Z; s ← expect ":"%char s;
  '(mi, s) ← take_digits 2 s 0%Z; s ← expect ":"%char s;
  '(se, s) ← take_digits 2 s 0%Z;
  match s with
  | EmptyString =>
      if (1678 <=? y)%Z && (y <=? 2261)%Z
         && (1 <=? mo)%Z && (mo <=? 12)%Z && (1 <=? d)%Z && (d <=? days_in_month y mo)%Z
         && (h <=? 23)%Z && (mi <=? 59)%Z && (se <=? 59)%Z
      then Some ((((days_from_civil y mo d * 24 + h) * 60 + mi) * 60 + se) * 1000000000)%Z
      else None
  | _ => None
  end.

(** The strings pandas reads as a missing timestamp (NaT). *)
Definition nat_strings : list string := ["NaT"; "nat"; "NAT"; "nan"; "NaN"; "NAN"].

(** One element in the upstream format or missing. *)
Definition parse_datetime (s : string) : result (option Z) :=
  if String.eqb s "" || existsb (String.eqb s) nat_strings then Ok None
  else match parse_timestamp s with
       | Some z => Ok (Some z)
       | None => Err (ParseError s)
       end.

(** A column of upstream timestamps and missing values; pandas converts
    such a column to the same values.  Any other column is refused here,
    although pandas reads many of them. *)
Fixpoint strict_to_datetime (col : list string) : result (list (option Z)) :=
  match col with
  | [] => mret []
  | s :: col' => t ← parse_datetime s; ts ← strict_to_datetime col'; mret (t :: ts)
  end.

(** Decimal digits at the front of [s], accumulated onto [acc]; also
    returns how many were read and the rest of [s]. *)
Fixpoint read_digits (s : string) (acc : Z) (k : nat) : Z * nat * string :=
  match s with
  | String c s' =>
      match digit c with
      | Some d => read_digits s' (acc * 10 + d)%Z (S k)
      | None => (acc, k, s)
      end
  | EmptyString => (acc, k, s)
  end.

(** A decimal numeral [[+-]digits[.digits]] with at least one digit. *)
Definition parse_number (s : string) : option Q :=
  let '(neg, s1) :=
    match s with
    | String c s' =>
        if Ascii.eqb c "-"%char then (true, s')
        else if Ascii.eqb c "+"%char then (false, s') else (false, s)
    | EmptyString => (false, s)
    end in
  let '(ip, ni, s2) := read_digits s1 0%Z O in
  let '(m, nf, s3) :=
    match s2 with
    | String c s' => if Ascii.eqb c "."%char then read_digits s' ip O else (ip, O, s2)
    | EmptyString => (ip, O, s2)
    end in
  match s3 with
  | EmptyString =>
      if (ni + nf =? 0)%nat then None
      else Some (Qmake (if neg then - m else m)%Z (Z.to_pos (10 ^ Z.of_nat nf)))
  | _ => None
  end.

(** An implementation of the interface that reads only the upstream
    formats: timestamps as [parse_datetime] and numbers as plain decimals
    (pandas also reads exponents, infinities and surrounding blanks).  It is
    used to run the definitions on concrete responses. *)
#[global] Instance pandas_strict : Pandas.
Proof.
  refine {| to_datetime := strict_to_datetime;
            to_numeric := map (fun s => option_map Finite (parse_number s)) |}.
  - induction col as [|s col IH]; intros vs H; cbn in H.
    + injection H as <-. reflexivity.
    + destruct (parse_datetime s) as [v|e]; [|discriminate]. cbn in H.
      destruct (strict_to_datetime col) as [ws|e]; [|discriminate].
      cbn in H. injection H as <-. cbn. f_equal. apply IH. reflexivity.
  - induction col as [|s col IH]; intros e H; cbn in H; [discriminate|].
    unfold parse_datetime in H.
    destruct (String.eqb s "" || existsb (String.eqb s) nat_strings).
    + cbn in H. destruct (strict_to_datetime col) as [ws|e']; [discriminate|].
      cbn in H. injection H as <-. apply (IH e'). reflexivity.
    + destruct (parse_timestamp s); cbn in H.
      * destruct (strict_to_datetime col) as [ws|e']; [discriminate|].
        cbn in H. injection H as <-. apply (IH e'). reflexivity.
      * injection H as <-. eauto.
  - intros col. apply length_map.
  - induction col as [|x col IH]; intros [|i] s H; cbn in H |- *; try discriminate.
    + injection H as ->. destruct (parse_number s); cbn; split; congruence.
    + apply IH, H.
Defined.

(** A row of the DataFrame after the conversions. *)
Record ForecastRow := {
  location : string;
  start_ts : option Z;
  end_ts : option Z;
  PoP : option Num;
  Wx : string;
  CI : string;
  MinT : option Num;
  MaxT : option Num
}.

(** The columns of [pd.DataFrame(rows)] put side by side again. *)
Fixpoint assemble (rows : list RawRow) (starts ends : list (option Z))
    (pops mints maxts : list (option Num)) : list ForecastRow :=
  match rows, starts, ends, pops, mints, maxts with
  | r :: rs, s :: ss, e :: es, p :: ps, a :: mas, b :: mbs =>
      {| location := raw_location r; start_ts := s; end_ts := e;
         PoP := p; Wx := raw_Wx r; CI := raw_CI r; MinT := a; MaxT := b |}
      :: assemble rs ss es ps mas mbs
  | _, _, _, _, _, _ => []
  end.

(** [pd.DataFrame(rows)] with the converted columns put back (lines 57-64). *)
Definition build_table `{P : Pandas} (rows : list RawRow) (starts ends : list (option Z))
  : list ForecastRow :=
  assemble rows starts ends (to_numeric (map raw_PoP rows))
    (to_numeric (map raw_MinT rows)) (to_numeric (map raw_MaxT rows)).

(* ------------------------------------------------------------------ *)
(** ** Sorting (line 66) *)

(** Ascending timestamps, NaT last ([na_position="last"]). *)
Definition ts_le (a b : option Z) : bool :=
  match a, b with
  | _, None => true
  | None, Some _ => false
  | Some x, Some y => (x <=? y)%Z
  end.

(** The order of [sort_values(["location", "startTime"])]: location, then
    startTime.  [String.leb] compares the UTF-8 bytes, which orders strings
    as Python does, by code point. *)
Definition key_le (a b : ForecastRow) : bool :=
  if String.eqb (location a) (location b) then ts_le (start_ts a) (start_ts b)
  else String.leb (location a) (location b).

(** Insert [x] before the first row whose key is not below it. *)
Fixpoint insert_row (x : ForecastRow) (l : list ForecastRow) : list ForecastRow :=
  match l with
  | [] => [x]
  | y :: l' => if key_le x y then x :: y :: l' else y :: insert_row x l'
  end.

(** The multi-column [sort_values] is a stable sort (pandas uses a
    lexicographic, stable indexer for several keys); modelled by insertion
    sort. *)
Fixpoint sort_values (l : list ForecastRow) : list ForecastRow :=
  match l with
  | [] => []
  | x :: l' => insert_row x (sort_values l')
  end.

(* ------------------------------------------------------------------ *)
(** ** [to_dataframe] (lines 31-67) *)

Definition to_dataframe `{P : Pandas} (data : Response) : result (list ForecastRow) :=
  rows ← emit_rows data;
  match rows with
  | [] => Err (KeyError "startTime")  (* [pd.DataFrame([])] has no columns *)
  | _ =>
      starts ← to_datetime (map raw_startTime rows);
      ends ← to_datetime (map raw_endTime rows);
      mret (sort_values (build_table rows starts ends))
  end.

(* ------------------------------------------------------------------ *)
(** ** The Streamlit script (lines 7-29 and 69-112) *)

(** Why a cycle stopped with [st.error]. *)
Inductive Failure :=
  | FetchFailed                    (** [requests.get] or [raise_for_status] raised *)
  | TransformFailed (e : PyError). (** [to_dataframe] raised *)

Inductive Message :=
  | MissingKey                     (** line 17 *)
  | LoadFailed (f : Failure).      (** line 76 *)

(** What the script shows or does, in order. *)
Inductive Event :=
  | SetPageConfig | Title | Caption | Info
  | StError (m : Message)
  | HttpGet (key : string)         (** the request of line 26 *)
  | Selectbox (options : list string)
  | Subheader | Write | LineChart | BarChart | DataFrameView
  | Raised.                        (** an uncaught exception; the run ends *)

(** [@st.cache_data(ttl=900) fetch_forecast()] at time [now] (seconds):
    [cache] is the single cache slot, holding the cached response and the
    time it was stored; an entry serves the calls made less than 900
    seconds after it was stored.  [net key] is the upstream's answer to one
    request ([None] when the request raises).  Only a returned value is
    cached. *)
Definition fetch_forecast (key : string) (net : string -> option Response) (now : Q)
    (cache : option (Response * Q))
  : list Event * option Response * option (Response * Q) :=
  let fetch :=
    match net key with
    | Some data => ([HttpGet key], Some data, Some (data, now))
    | None => ([HttpGet key], None, None)
    end in
  match cache with
  | Some (data, stored) => if Qle_bool 900 (now - stored) then fetch else ([], Some data, cache)
  | None => fetch
  end.

(** [df["location"].unique()], in order of first appearance. *)
Fixpoint unique_strings (seen : list string) (l : list string) : list string :=
  match l with
  | [] => []
  | x :: l' =>
      if existsb (String.eqb x) seen then unique_strings seen l'
      else x :: unique_strings (x :: seen) l'
  end.

(** [st.selectbox(..., options, index=0)] (line 84): the option the user
    has picked ([choice]), or the first option before any pick or when the
    pick is no longer offered; [None] when there is no option. *)
Definition selectbox (options : list string) (choice : option string) : option string :=
  match choice with
  | Some c => if existsb (String.eqb c) options then Some c else head options
  | None => head options
  end.

(** [sub] of line 85: the rows of the selected city, in table order. *)
Definition city_rows (city : option string) (df : list ForecastRow) : list ForecastRow :=
  match city with
  | Some c => List.filter (fun r => String.eqb (location r) c) df
  | None => []
  end.

(** Lines 79-112, for a table [df] and the user's pick [choice].  The
    f-string of line 92 formats [t0] and [t1] with ["%Y-%m-%d %H:%M"], which
    raises [ValueError] on NaT. *)
Definition dashboard (choice : option string) (df : list ForecastRow) : list Event :=
  let all_locations := unique_strings [] (map location df) in
  let city := selectbox all_locations choice in
  let sub := city_rows city df in
  let charts := [Subheader; LineChart; Subheader; BarChart; Subheader; DataFrameView] in
  [Selectbox all_locations] ++
  match sub with
  | [] => charts
  | r :: _ =>
      let t0 := start_ts r in
      let t1 := match last sub with Some r' => end_ts r' | None => None end in
      Subheader ::
      match t0, t1 with
      | Some _, Some _ => [Write; Write] ++ charts
      | _, _ => [Raised]
      end
  end.

(** One run of the script at time [now]: the environment [env], the
    upstream [net], the user's pick [choice] and the cache slot; returns the
    events and the new cache slot.  [st.stop()] ends the run. *)
Definition run_script `{P : Pandas} (env : gmap string string)
    (net : string -> option Response) (now : Q) (choice : option string)
    (cache : option (Response * Q)) : list Event * option (Response * Q) :=
  let CWA_KEY := default "" (env !! "CWA_KEY") in
  let header := [SetPageConfig; Title; Caption] in
  if String.eqb CWA_KEY "" then (header ++ [StError MissingKey], cache)
  else
    let '(evs, res, cache') := fetch_forecast CWA_KEY net now cache in
    let body :=
      match res with
      | None => [StError (LoadFailed FetchFailed)]
      | Some raw_data =>
          match to_dataframe raw_data with
          | Err e => [StError (LoadFailed (TransformFailed e))]
          | Ok df => dashboard choice df
          end
      end in
    (header ++ [Info] ++ evs ++ body, cache').

(* ------------------------------------------------------------------ *)
(** ** Spec-side definitions compared with the code *)

(** The five element names of §3. *)
Definition required_elements : list string := ["PoP"; "Wx"; "CI"; "MinT"; "MaxT"].

(** The value of the [i]-th slot of element [k] in the mapping [m]. *)
Definition slot_value (m : gmap string (list TimeSlot)) (k : string) (i : nat) : string :=
  match m !! k with
  | Some ts => match ts !! i with Some t => parameterName t | None => "" end
  | None => ""
  end.

(** §4.2 step 1c: the row for index [i] of the PoP axis, whose slot is [t]:
    [t]'s times and the i-th value of each of the five elements. *)
Definition aligned_row (name : string) (m : gmap string (list TimeSlot)) (i : nat)
    (t : TimeSlot) : RawRow :=
  {| raw_location := name; raw_startTime := startTime t; raw_endTime := endTime t;
     raw_PoP := slot_value m "PoP" i; raw_Wx := slot_value m "Wx" i;
     raw_CI := slot_value m "CI" i; raw_MinT := slot_value m "MinT" i;
     raw_MaxT := slot_value m "MaxT" i |}.

(** One row per index of the PoP axis, in index order. *)
Definition aligned_location (loc : Location) : list RawRow :=
  let m := build_elements (weatherElement loc) in
  imap (aligned_row (locationName loc) m) (default [] (m !! "PoP")).

Definition aligned_rows (data : Response) : list RawRow :=
  List.concat (map aligned_location (records_location data)).

(** [pd.notna] of a timestamp. *)
Definition notna (ts : option Z) : bool :=
  match ts with Some _ => true | None => false end.

(** A location's PoP slots, none when it has no PoP element. *)
Definition pop_slots (loc : Location) : list TimeSlot :=
  default [] (build_elements (weatherElement loc) !! "PoP").

(** A location's PoP slot count. *)
Definition pop_count (loc : Location) : nat :=
  length (default [] (build_elements (weatherElement loc) !! "PoP")).

(** The three numeric columns. *)
Inductive NumField := FPoP | FMinT | FMaxT.

Definition raw_num (f : NumField) (r : RawRow) : string :=
  match f with FPoP => raw_PoP r | FMinT => raw_MinT r | FMaxT => raw_MaxT r end.

Definition row_num (f : NumField) (r : ForecastRow) : option Num :=
  match f with FPoP => PoP r | FMinT => MinT r | FMaxT => MaxT r end.

(** Same sort key. *)
Definition key_eqb (a b : ForecastRow) : bool := key_le a b && key_le b a.

(** [e'] is [e] except, for a non-PoP element, at indices [>= n]. *)
Definition elem_ext (n : nat) (e e' : WeatherElement) : Prop :=
  elementName e = elementName e' /\
  (if String.eqb (elementName e) "PoP" then time e = time e'
   else forall i, i < n -> time e !! i = time e' !! i).

(** [loc'] is [loc] except for non-PoP slots beyond the PoP axis. *)
Definition loc_ext (loc loc' : Location) : Prop :=
  locationName loc = locationName loc' /\
  Forall2 (elem_ext (pop_count loc)) (weatherElement loc) (weatherElement loc').

(** Two element mappings that agree on PoP and, below index [n], on every
    element. *)
Definition elements_ext (n : nat) (m m' : gmap string (list TimeSlot)) : Prop :=
  forall k,
    match m !! k, m' !! k with
    | None, None => True
    | Some ts, Some ts' => (k = "PoP" -> ts = ts') /\ forall i, i < n -> ts !! i = ts' !! i
    | _, _ => False
    end.

(** Lines 74-112 after the fetch: what a run shows for the fetch result. *)
Definition report `{P : Pandas} (choice : option string) (res : option Response)
  : list Event :=
  match res with
  | None => [StError (LoadFailed FetchFailed)]
  | Some raw_data =>
      match to_dataframe raw_data with
      | Err e => [StError (LoadFailed (TransformFailed e))]
      | Ok df => dashboard choice df
      end
  end.

(** Whether the cache slot holds an entry that serves a call at [now]. *)
Definition cache_valid (now : Q) (cache : option (Response * Q)) : bool :=
  match cache with
  | Some (_, stored) => negb (Qle_bool 900 (now - stored))
  | None => false
  end.

(** Whether an event is the request of line 26. *)
Definition is_http (ev : Event) : bool :=
  match ev with HttpGet _ => true | _ => false end.

(** [city] of line 84 before the user picks: the first option. *)
Definition selected_city (df : list ForecastRow) : option string :=
  head (unique_strings [] (map location df)).

(* ------------------------------------------------------------------ *)
(** ** Concrete responses *)

Definition fx_slot (s e v : string) : TimeSlot :=
  {| startTime := s; endTime := e; parameterName := v |}.

Definition fx_element (n : string) (slots : list TimeSlot) : WeatherElement :=
  {| elementName := n; time := slots |}.

(** A location whose elements [names] all carry the same slots. *)
Definition fx_location (name : string) (names : list string) (slots : list TimeSlot)
  : Location :=
  {| locationName := name; weatherElement := map (fun n => fx_element n slots) names |}.

Definition fx_morning : TimeSlot := fx_slot "2024-01-01 06:00:00" "2024-01-01 18:00:00" "20".
Definition fx_evening : TimeSlot := fx_slot "2024-01-01 18:00:00" "2024-01-02 06:00:00" "NA".

(** Two complete locations, listed out of order, slots out of time order. *)
Definition fx_two : Response :=
  {| records_location :=
       [fx_location "Taipei" required_elements [fx_evening; fx_morning];
        fx_location "Hualien" required_elements [fx_morning; fx_evening]] |}.

(** [fx_two] with two extra Wx slots beyond the PoP axis of Taipei. *)
Definition fx_two_extended : Response :=
  {| records_location :=
       [{| locationName := "Taipei";
           weatherElement :=
             [fx_element "PoP" [fx_evening; fx_morning];
              fx_element "Wx" [fx_evening; fx_morning; fx_morning; fx_slot "x" "y" "z"];
              fx_element "CI" [fx_evening; fx_morning];
              fx_element "MinT" [fx_evening; fx_morning];
              fx_element "MaxT" [fx_evening; fx_morning]] |};
        fx_location "Hualien" required_elements [fx_morning; fx_evening]] |}.

(** Location A lacks CI and has an empty PoP axis. *)
Definition fx_missing_ci_no_slots : Response :=
  {| records_location :=
       [fx_location "A" ["PoP"; "Wx"; "MinT"; "MaxT"] [];
        fx_location "B" required_elements [fx_morning]] |}.

(** Location A lacks CI and has one PoP slot. *)
Definition fx_missing_ci : Response :=
  {| records_location := [fx_location "A" ["PoP"; "Wx"; "MinT"; "MaxT"] [fx_morning]] |}.

(** Location A's CI sequence is shorter than its PoP sequence. *)
Definition fx_short_ci : Response :=
  {| records_location :=
       [{| locationName := "A";
           weatherElement :=
             [fx_element "PoP" [fx_morning; fx_evening];
              fx_element "Wx" [fx_morning; fx_evening];
              fx_element "CI" [fx_morning];
              fx_element "MinT" [fx_morning; fx_evening];
              fx_element "MaxT" [fx_morning; fx_evening]] |}] |}.

Definition fx_garbage : TimeSlot := fx_slot "garbage" "garbage" "20".

(** A malformed startTime in a Wx slot only. *)
Definition fx_bad_wx_time : Response :=
  {| records_location :=
       [{| locationName := "A";
           weatherElement :=
             [fx_element "PoP" [fx_morning]; fx_element "Wx" [fx_garbage];
              fx_element "CI" [fx_morning]; fx_element "MinT" [fx_morning];
              fx_element "MaxT" [fx_morning]] |}] |}.

(** An empty startTime in a PoP slot. *)
Definition fx_empty_start : Response :=
  {| records_location :=
       [fx_location "A" required_elements [fx_slot "" "2024-01-01 18:00:00" "20"]] |}.

(** A malformed startTime in a PoP slot. *)
Definition fx_bad_pop_time : Response :=
  {| records_location := [fx_location "A" required_elements [fx_morning; fx_garbage]] |}.

(** An upstream that always answers with [fx_two]. *)
Definition fx_net (key : string) : option Response := Some fx_two.

(** An upstream whose answer [to_dataframe] rejects. *)
Definition fx_net_bad (key : string) : option Response := Some fx_missing_ci.

(** An upstream whose requests always fail. *)
Definition fx_net_down (key : string) : option Response := None.

(** An environment with [CWA_KEY] set. *)
Definition fx_env : gmap string string := <["CWA_KEY" := "KEY"]> ∅.

(* ------------------------------------------------------------------ *)
(** ** The sort order *)

Section SortOrder.

Lemma ts_le_refl (a : option Z) : ts_le a a = true.
Proof. destruct a; simpl; [apply Z.leb_refl | reflexivity]. Qed.

Lemma ts_le_total (a b : option Z) : ts_le a b = true \/ ts_le b a = true.
Proof.
  destruct a as [x|], b as [y|]; simpl; auto.
  destruct (Z.leb_spec x y); [left; reflexivity | right; apply Z.leb_le; lia].
Qed.

Lemma ts_le_trans (a b c : option Z) :
  ts_le a b = true -> ts_le b c = true -> ts_le a c = true.
Proof.
  destruct a as [x|], b as [y|], c as [z|]; simpl; try discriminate; auto.
  rewrite !Z.leb_le. lia.
Qed.

Lemma string_leb_trans (a b c : string) :
  String.leb a b = true -> String.leb b c = true -> String.leb a c = true.
Proof.
  intros H1 H2.
  assert (T : strings.String.le a c).
  { apply (PreOrder_Transitive (R := strings.String.le) a b c);
      unfold strings.String.le; [rewrite H1 | rewrite H2]; exact I. }
  unfold strings.String.le in T. destruct (String.leb a c); [reflexivity | contradiction].
Qed.

Lemma string_leb_antisym (a b : string) :
  String.leb a b = true -> String.leb b a = true -> a = b.
Proof. apply String.leb_antisym. Qed.

Lemma key_le_refl (a : ForecastRow) : key_le a a = true.
Proof. unfold key_le. rewrite String.eqb_refl. apply ts_le_refl. Qed.

Lemma key_le_total (a b : ForecastRow) : key_le a b = true \/ key_le b a = true.
Proof.
  unfold key_le. rewrite (String.eqb_sym (location b)).
  destruct (String.eqb_spec (location a) (location b)).
  - apply ts_le_total.
  - apply String.leb_total.
Qed.

Lemma key_le_trans (a b c : ForecastRow) :
  key_le a b = true -> key_le b c = true -> key_le a c = true.
Proof.
  unfold key_le.
  destruct (String.eqb_spec (location a) (location b)) as [Eab|Nab];
  destruct (String.eqb_spec (location b) (location c)) as [Ebc|Nbc];
  destruct (String.eqb_spec (location a) (location c)) as [Eac|Nac];
    intros H1 H2; try congruence.
  - eapply ts_le_trans; eauto.
  - exfalso. apply Nab. apply string_leb_antisym; [exact H1 | rewrite Eac; exact H2].
  - eapply string_leb_trans; eauto.
Qed.

Let R (a b : ForecastRow) : Prop := key_le a b = true.

Lemma insert_row_perm (x : ForecastRow) (l : list ForecastRow) :
  Permutation (insert_row x l) (x :: l).
Proof.
  induction l as [|y l IH]; simpl; [reflexivity|].
  destruct (key_le x y); [reflexivity|].
  rewrite IH. apply perm_swap.
Qed.

Lemma sort_values_perm (l : list ForecastRow) : Permutation (sort_values l) l.
Proof.
  induction l as [|x l IH]; simpl; [reflexivity|].
  rewrite insert_row_perm, IH. reflexivity.
Qed.

Lemma insert_row_hdrel (x y : ForecastRow) (l : list ForecastRow) :
  HdRel R y l -> R y x -> HdRel R y (insert_row x l).
Proof.
  intros Hh Hyx. destruct l as [|z l]; simpl.
  - constructor. exact Hyx.
  - inversion Hh; subst. destruct (key_le x z); constructor; assumption.
Qed.

Lemma insert_row_sorted (x : ForecastRow) (l : list ForecastRow) :
  Sorted R l -> Sorted R (insert_row x l).
Proof.
  induction l as [|y l IH]; simpl; intros Hs.
  - repeat constructor.
  - inversion Hs as [|? ? Hl Hh]; subst.
    destruct (key_le x y) eqn:Hxy.
    + constructor; [exact Hs | constructor; exact Hxy].
    + constructor; [apply IH, Hl|].
      apply insert_row_hdrel; [exact Hh|].
      unfold R. destruct (key_le_total x y); [congruence | assumption].
Qed.

Lemma sort_values_sorted (l : list ForecastRow) : Sorted R (sort_values l).
Proof.
  induction l as [|x l IH]; simpl; [constructor|]. apply insert_row_sorted, IH.
Qed.

Lemma insert_row_filter (a x : ForecastRow) (l : list ForecastRow) :
  List.filter (key_eqb a) (insert_row x l) =
  if key_eqb a x then x :: List.filter (key_eqb a) l else List.filter (key_eqb a) l.
Proof.
  induction l as [|y l IH]; simpl.
  - destruct (key_eqb a x); reflexivity.
  - destruct (key_le x y) eqn:Hxy; simpl; [reflexivity|].
    rewrite IH. unfold key_eqb.
    destruct (key_le a y) eqn:Hay, (key_le y a) eqn:Hya,
             (key_le a x) eqn:Hax, (key_le x a) eqn:Hxa; simpl; try reflexivity.
    exfalso. assert (key_le x y = true) by (eapply key_le_trans; eauto). congruence.
Qed.

Lemma sort_values_stable (a : ForecastRow) (l : list ForecastRow) :
  List.filter (key_eqb a) (sort_values l) = List.filter (key_eqb a) l.
Proof.
  induction l as [|x l IH]; simpl; [reflexivity|].
  rewrite insert_row_filter, IH. reflexivity.
Qed.

End SortOrder.

(* ------------------------------------------------------------------ *)
(** ** Facts about the error monad and the row emission *)

Section Emission.

Context {PD : Pandas}.

Lemma bind_ok {A B} (m : result A) (f : A -> result B) (b : B) :
  mbind f m = Ok b -> exists a, m = Ok a /\ f a = Ok b.
Proof. destruct m as [a|e]; cbn; [eauto | discriminate]. Qed.

Lemma bind_of_ok {A B} (a : A) (f : A -> result B) : mbind f (Ok a) = f a.
Proof. reflexivity. Qed.

Lemma bind_of_err {A B} (e : PyError) (f : A -> result B) : mbind f (Err e) = Err e.
Proof. reflexivity. Qed.

Lemma forall2_in_l {A B} (P : A -> B -> Prop) (l1 : list A) (l2 : list B) (x : A) :
  Forall2 P l1 l2 -> In x l1 -> exists y, In y l2 /\ P x y.
Proof.
  induction 1 as [|a b l1 l2 Hab _ IH]; cbn; [contradiction|].
  intros [->|Hin]; [eauto|]. destruct (IH Hin) as (y & ? & ?); eauto.
Qed.

Ltac inv_bind H :=
  let a := fresh "a" in let Ha := fresh "Ha" in
  apply bind_ok in H as (a & Ha & H).

Lemma param_ok (m : gmap string (list TimeSlot)) (k : string) (i : nat) (v : string) :
  param m k i = Ok v ->
  exists ts t, m !! k = Some ts /\ ts !! i = Some t /\ v = parameterName t.
Proof.
  unfold param, dict_get, py_index. intros H.
  destruct (m !! k) as [ts|] eqn:Hk; [|discriminate]. rewrite bind_of_ok in H.
  destruct (ts !! i) as [t|] eqn:Ht; [|discriminate]. cbn in H. injection H as <-. eauto.
Qed.

Lemma param_value (m : gmap string (list TimeSlot)) (k : string) (i : nat) (ts : list TimeSlot) :
  m !! k = Some ts -> i < length ts -> param m k i = Ok (slot_value m k i).
Proof.
  intros Hk Hi. unfold param, dict_get, py_index, slot_value. rewrite Hk, bind_of_ok.
  destruct (lookup_lt_is_Some_2 ts i Hi) as [t Ht]. rewrite Ht. reflexivity.
Qed.

Lemma emit_row_ok (name : string) (m : gmap string (list TimeSlot)) (i : nat)
    (t : TimeSlot) (row : RawRow) :
  emit_row name m i t = Ok row ->
  (forall k, k ∈ required_elements -> exists v, param m k i = Ok v) /\
  raw_location row = name /\ raw_startTime row = startTime t /\ raw_endTime row = endTime t.
Proof.
  unfold emit_row. intros H.
  inv_bind H. inv_bind H. inv_bind H. inv_bind H. inv_bind H.
  cbn in H. injection H as <-. repeat split; [|reflexivity..].
  intros k Hk. repeat (apply elem_of_cons in Hk as [->|Hk]; [eauto|]).
  apply elem_of_nil in Hk as [].
Qed.

Lemma emit_slots_ok (name : string) (m : gmap string (list TimeSlot)) (ts : list TimeSlot) :
  forall (i : nat) (rows : list RawRow),
  emit_slots name m i ts = Ok rows ->
  (forall j t, ts !! j = Some t -> exists row, emit_row name m (i + j) t = Ok row) /\
  map raw_startTime rows = map startTime ts /\
  map raw_endTime rows = map endTime ts.
Proof.
  induction ts as [|t ts IH]; intros i rows H; cbn in H.
  - injection H as <-. repeat split; [|reflexivity..]. intros j t' Hj. discriminate.
  - inv_bind H. inv_bind H. cbn in H. injection H as <-.
    destruct (emit_row_ok _ _ _ _ _ Ha) as (_ & _ & Hs & He).
    destruct (IH _ _ Ha0) as (Hrows & Hs' & He').
    repeat split; cbn; [| rewrite Hs, Hs'; reflexivity | rewrite He, He'; reflexivity].
    intros [|j] t' Hj; cbn in Hj.
    + injection Hj as <-. rewrite Nat.add_0_r. eauto.
    + rewrite <- Nat.add_succ_comm. eauto.
Qed.

Lemma emit_slots_length (name : string) (m : gmap string (list TimeSlot)) (ts : list TimeSlot) :
  forall (i : nat) (rows : list RawRow),
  emit_slots name m i ts = Ok rows -> length rows = length ts.
Proof.
  intros i rows H. apply emit_slots_ok in H as (_ & H & _).
  rewrite <- (length_map raw_startTime), H, length_map. reflexivity.
Qed.

Lemma emit_locations_ok (locs : list Location) (rows : list RawRow) :
  emit_locations locs = Ok rows ->
  exists rss, Forall2 (fun loc rs => emit_location loc = Ok rs) locs rss /\
              rows = List.concat rss.
Proof.
  revert rows. induction locs as [|loc locs IH]; intros rows H; cbn in H.
  - injection H as <-. exists []. split; [constructor | reflexivity].
  - inv_bind H. inv_bind H. cbn in H. injection H as <-.
    destruct (IH _ Ha0) as (rss & Hf & ->).
    exists (a :: rss). split; [constructor; assumption | reflexivity].
Qed.

Lemma emit_locations_err (locs : list Location) (loc : Location) :
  loc ∈ locs -> is_err (emit_location loc) = true -> is_err (emit_locations locs) = true.
Proof.
  intros Hin Herr. destruct (emit_locations locs) as [rows|e] eqn:H; [|reflexivity].
  exfalso. apply emit_locations_ok in H as (rss & Hf & _).
  apply list_elem_of_In in Hin. destruct (forall2_in_l _ _ _ _ Hf Hin) as (rs & _ & Hrs).
  rewrite Hrs in Herr. discriminate.
Qed.

Lemma emit_row_aligned (name : string) (m : gmap string (list TimeSlot)) (i : nat)
    (t : TimeSlot) :
  (forall k, k ∈ required_elements -> exists ts, m !! k = Some ts /\ i < length ts) ->
  emit_row name m i t = Ok (aligned_row name m i t).
Proof.
  intros Hall.
  assert (Hp : forall k, k ∈ required_elements -> param m k i = Ok (slot_value m k i)).
  { intros k Hk. destruct (Hall k Hk) as (ts & Hts & Hi). eapply param_value; eauto. }
  unfold emit_row.
  rewrite (Hp "PoP"), bind_of_ok by (repeat constructor).
  rewrite (Hp "Wx"), bind_of_ok by (repeat constructor).
  rewrite (Hp "CI"), bind_of_ok by (repeat constructor).
  rewrite (Hp "MinT"), bind_of_ok by (repeat constructor).
  rewrite (Hp "MaxT"), bind_of_ok by (repeat constructor).
  reflexivity.
Qed.

Lemma emit_slots_aligned (name : string) (m : gmap string (list TimeSlot)) (ts : list TimeSlot) :
  forall i,
  (forall k, k ∈ required_elements -> exists tk, m !! k = Some tk /\ i + length ts <= length tk) ->
  emit_slots name m i ts = Ok (imap (fun j t => aligned_row name m (i + j) t) ts).
Proof.
  induction ts as [|t ts IH]; intros i Hall; [reflexivity|]. cbn [emit_slots].
  rewrite emit_row_aligned.
  2:{ intros k Hk. destruct (Hall k Hk) as (tk & Htk & Hle). cbn in Hle.
      exists tk. split; [exact Htk | lia]. }
  rewrite bind_of_ok, IH.
  2:{ intros k Hk. destruct (Hall k Hk) as (tk & Htk & Hle). cbn in Hle.
      exists tk. split; [exact Htk | lia]. }
  rewrite bind_of_ok. cbn. rewrite Nat.add_0_r. f_equal. f_equal.
  apply imap_ext. intros j x _. cbn. f_equal. lia.
Qed.

Lemma emit_location_fails_at (loc : Location) (pops : list TimeSlot) (j : nat)
    (t : TimeSlot) (k : string) :
  build_elements (weatherElement loc) !! "PoP" = Some pops -> pops !! j = Some t ->
  k ∈ required_elements -> is_err (param (build_elements (weatherElement loc)) k j) = true ->
  is_err (emit_location loc) = true.
Proof.
  intros Hp Hj Hk Herr. unfold emit_location, dict_get at 1. rewrite Hp, bind_of_ok.
  destruct (emit_slots _ _ 0 pops) as [rows|e] eqn:H; [|reflexivity]. exfalso.
  apply emit_slots_ok in H as (Hrows & _ & _).
  destruct (Hrows j t Hj) as (row & Hrow). apply emit_row_ok in Hrow as (Hps & _).
  destruct (Hps k Hk) as (v & Hv). cbn in Hv. rewrite Hv in Herr. discriminate.
Qed.

Lemma to_dataframe_fails_with (data : Response) (loc : Location) :
  loc ∈ records_location data -> is_err (emit_location loc) = true ->
  is_err (to_dataframe data) = true.
Proof.
  intros Hin Herr. pose proof (emit_locations_err _ _ Hin Herr) as H.
  unfold to_dataframe, emit_rows.
  destruct (emit_locations (records_location data)); [discriminate | reflexivity].
Qed.

Lemma to_dataframe_ok (data : Response) (t : list ForecastRow) :
  to_dataframe data = Ok t ->
  exists rows starts ends,
    emit_rows data = Ok rows /\ rows <> [] /\
    to_datetime (map raw_startTime rows) = Ok starts /\
    to_datetime (map raw_endTime rows) = Ok ends /\
    t = sort_values (build_table rows starts ends).
Proof.
  unfold to_dataframe. intros H. inv_bind H.
  destruct a as [|r rs]; [discriminate|].
  inv_bind H. inv_bind H. cbn in H. injection H as <-.
  exists (r :: rs), a, a0. repeat split; auto.
Qed.

Lemma assemble_lookup (rows : list RawRow) (starts ends : list (option Z))
    (pops mints maxts : list (option Num)) (i : nat) (r : RawRow) (s e : option Z)
    (p a b : option Num) :
  rows !! i = Some r -> starts !! i = Some s -> ends !! i = Some e ->
  pops !! i = Some p -> mints !! i = Some a -> maxts !! i = Some b ->
  assemble rows starts ends pops mints maxts !! i =
    Some {| location := raw_location r; start_ts := s; end_ts := e;
            PoP := p; Wx := raw_Wx r; CI := raw_CI r; MinT := a; MaxT := b |}.
Proof.
  revert starts ends pops mints maxts i.
  induction rows as [|r0 rows IH];
    intros [|s0 ss] [|e0 es] [|p0 ps] [|a0 mas] [|b0 mbs] [|i]; cbn;
    intros Hr Hs He Hp Ha Hb; try discriminate.
  - injection Hr as <-. injection Hs as <-. injection He as <-.
    injection Hp as <-. injection Ha as <-. injection Hb as <-. reflexivity.
  - apply IH; assumption.
Qed.

Lemma assemble_length (rows : list RawRow) (starts ends : list (option Z))
    (pops mints maxts : list (option Num)) :
  length starts = length rows -> length ends = length rows ->
  length pops = length rows -> length mints = length rows -> length maxts = length rows ->
  length (assemble rows starts ends pops mints maxts) = length rows.
Proof.
  revert starts ends pops mints maxts.
  induction rows as [|r0 rows IH];
    intros [|s0 ss] [|e0 es] [|p0 ps] [|a0 mas] [|b0 mbs]; cbn; intros; try lia.
  f_equal. apply IH; lia.
Qed.

Lemma build_table_length (rows : list RawRow) (starts ends : list (option Z)) :
  length starts = length rows -> length ends = length rows ->
  length (build_table rows starts ends) = length rows.
Proof.
  intros Hs He. unfold build_table.
  apply assemble_length; rewrite ?to_numeric_length, ?length_map; first [reflexivity | assumption].
Qed.

(** The [i]-th row of the table is built from the [i]-th emitted row and the
    [i]-th converted values. *)
Lemma build_table_lookup (rows : list RawRow) (starts ends : list (option Z))
    (i : nat) (row : RawRow) :
  length starts = length rows -> length ends = length rows -> rows !! i = Some row ->
  exists out, build_table rows starts ends !! i = Some out /\
    location out = raw_location row /\ Wx out = raw_Wx row /\ CI out = raw_CI row /\
    starts !! i = Some (start_ts out) /\ ends !! i = Some (end_ts out) /\
    forall g, to_numeric (map (raw_num g) rows) !! i = Some (row_num g out).
Proof.
  intros Hs He Hr.
  assert (Hi : i < length rows) by (apply lookup_lt_Some with row; exact Hr).
  destruct (lookup_lt_is_Some_2 starts i ltac:(lia)) as [s Hsi].
  destruct (lookup_lt_is_Some_2 ends i ltac:(lia)) as [e Hei].
  destruct (lookup_lt_is_Some_2 (to_numeric (map raw_PoP rows)) i
    ltac:(rewrite to_numeric_length, length_map; lia)) as [p Hp].
  destruct (lookup_lt_is_Some_2 (to_numeric (map raw_MinT rows)) i
    ltac:(rewrite to_numeric_length, length_map; lia)) as [a Ha].
  destruct (lookup_lt_is_Some_2 (to_numeric (map raw_MaxT rows)) i
    ltac:(rewrite to_numeric_length, length_map; lia)) as [b Hb].
  eexists. split; [unfold build_table; apply (assemble_lookup _ _ _ _ _ _ i row s e p a b);
    assumption|].
  cbn. repeat split; try assumption. intros []; assumption.
Qed.

Lemma bind_err {A B} (m : result A) (f : A -> result B) (e : PyError) :
  mbind f m = Err e -> m = Err e \/ exists a, m = Ok a /\ f a = Err e.
Proof. destruct m as [a|e']; cbn; [eauto | intros [= <-]; auto]. Qed.

Ltac inv_bind_err H :=
  let a := fresh "a" in let Ha := fresh "Ha" in
  apply bind_err in H as [H|(a & Ha & H)].

Lemma param_err (m : gmap string (list TimeSlot)) (k : string) (i : nat) (e : PyError) :
  param m k i = Err e -> e = IndexError \/ exists k', e = KeyError k'.
Proof.
  unfold param, dict_get, py_index. destruct (m !! k) as [ts|]; cbn; [|intros [= <-]; eauto].
  destruct (ts !! i); cbn; [discriminate | intros [= <-]; auto].
Qed.

Lemma emit_row_err (name : string) (m : gmap string (list TimeSlot)) (i : nat)
    (t : TimeSlot) (e : PyError) :
  emit_row name m i t = Err e -> e = IndexError \/ exists k', e = KeyError k'.
Proof.
  unfold emit_row. intros H.
  inv_bind_err H; [eapply param_err; exact H|].
  inv_bind_err H; [eapply param_err; exact H|].
  inv_bind_err H; [eapply param_err; exact H|].
  inv_bind_err H; [eapply param_err; exact H|].
  inv_bind_err H; [eapply param_err; exact H|].
  discriminate.
Qed.

Lemma emit_slots_err (name : string) (m : gmap string (list TimeSlot)) (ts : list TimeSlot) :
  forall (i : nat) (e : PyError),
  emit_slots name m i ts = Err e -> e = IndexError \/ exists k', e = KeyError k'.
Proof.
  induction ts as [|t ts IH]; intros i e H; cbn in H; [discriminate|].
  inv_bind_err H; [eapply emit_row_err; exact H|].
  inv_bind_err H; [eapply IH; exact H|]. discriminate.
Qed.

(** The row emission raises only [KeyError] and [IndexError]. *)
Lemma emit_location_err (loc : Location) (e : PyError) :
  emit_location loc = Err e -> e = IndexError \/ exists k', e = KeyError k'.
Proof.
  unfold emit_location. intros H.
  inv_bind_err H; [unfold dict_get in H; destruct (_ !! _); cbn in H;
    [discriminate | injection H as <-; eauto]|].
  eapply emit_slots_err; exact H.
Qed.

Lemma emit_locations_err_kind (locs : list Location) (e : PyError) :
  emit_locations locs = Err e -> e = IndexError \/ exists k', e = KeyError k'.
Proof.
  induction locs as [|loc locs IH]; cbn; intros H; [discriminate|].
  inv_bind_err H; [eapply emit_location_err; exact H|].
  inv_bind_err H; [apply IH, H|]. discriminate.
Qed.

(** The timestamp strings of a location's rows are its PoP slots' times. *)
Lemma emit_location_times (loc : Location) (rs : list RawRow) :
  emit_location loc = Ok rs ->
  map raw_startTime rs = map startTime (pop_slots loc) /\
  map raw_endTime rs = map endTime (pop_slots loc).
Proof.
  unfold emit_location, pop_slots, dict_get. intros H.
  destruct (build_elements (weatherElement loc) !! "PoP") as [pops|]; cbn in H;
    [|discriminate].
  apply emit_slots_ok in H as (_ & Hs & He). auto.
Qed.

(** The columns given to [pd.to_datetime] (lines 60-61). *)
Lemma emit_rows_columns (data : Response) (rows : list RawRow) :
  emit_rows data = Ok rows ->
  map raw_startTime rows =
    List.concat (map (fun loc => map startTime (pop_slots loc)) (records_location data)) /\
  map raw_endTime rows =
    List.concat (map (fun loc => map endTime (pop_slots loc)) (records_location data)).
Proof.
  unfold emit_rows. intros H. apply emit_locations_ok in H as (rss & Hf & ->).
  induction Hf as [|loc rs locs rss Hloc _ IH]; [split; reflexivity|].
  cbn [List.concat map]. rewrite !map_app.
  destruct (emit_location_times loc rs Hloc) as [Hs He].
  destruct IH as [IHs IHe]. rewrite Hs, He, IHs, IHe. split; reflexivity.
Qed.

(** The times of every PoP slot of every location reach the timestamp
    columns. *)
Lemma emit_rows_times (data : Response) (rows : list RawRow) (loc : Location)
    (pops : list TimeSlot) (t : TimeSlot) :
  emit_rows data = Ok rows -> loc ∈ records_location data ->
  build_elements (weatherElement loc) !! "PoP" = Some pops -> t ∈ pops ->
  In (startTime t) (map raw_startTime rows) /\ In (endTime t) (map raw_endTime rows).
Proof.
  intros Hrows Hin Hp Ht. unfold emit_rows in Hrows.
  apply emit_locations_ok in Hrows as (rss & Hf & ->).
  apply list_elem_of_In in Hin, Ht.
  destruct (forall2_in_l _ _ _ _ Hf Hin) as (rs & Hrs & Hloc).
  unfold emit_location, dict_get in Hloc. rewrite Hp, bind_of_ok in Hloc.
  apply emit_slots_ok in Hloc as (_ & Hs & He).
  split; apply in_map_iff.
  - assert (Hx : In (startTime t) (map raw_startTime rs)) by (rewrite Hs; apply in_map, Ht).
    apply in_map_iff in Hx as (r & Hr & Hrin). exists r. split; [exact Hr|].
    apply in_concat. eauto.
  - assert (Hx : In (endTime t) (map raw_endTime rs)) by (rewrite He; apply in_map, Ht).
    apply in_map_iff in Hx as (r & Hr & Hrin). exists r. split; [exact Hr|].
    apply in_concat. eauto.
Qed.

End Emission.

(* ------------------------------------------------------------------ *)
(** ** Slots beyond the PoP axis *)

Section Extension.

Lemma elements_ext_insert (n : nat) (m m' : gmap string (list TimeSlot))
    (e e' : WeatherElement) :
  elements_ext n m m' -> elem_ext n e e' ->
  elements_ext n (<[elementName e := time e]> m) (<[elementName e' := time e']> m').
Proof.
  intros Hm [Hname Htime] k. rewrite <- Hname.
  destruct (decide (elementName e = k)) as [<-|Hne].
  - rewrite !lookup_insert_eq.
    destruct (String.eqb_spec (elementName e) "PoP") as [Hp|Hp].
    + split; [intros _; exact Htime | intros i _; rewrite Htime; reflexivity].
    + split; [intros Hk; contradiction | exact Htime].
  - rewrite !lookup_insert_ne by exact Hne. apply Hm.
Qed.

Lemma foldl_insert_ext (n : nat) (els els' : list WeatherElement) :
  Forall2 (elem_ext n) els els' ->
  forall m m', elements_ext n m m' ->
  elements_ext n (foldl (fun m el => <[elementName el := time el]> m) m els)
                 (foldl (fun m el => <[elementName el := time el]> m) m' els').
Proof.
  induction 1 as [|e e' els els' He _ IH]; intros m m' Hm; cbn; [exact Hm|].
  apply IH. apply elements_ext_insert; assumption.
Qed.

Lemma build_elements_ext (n : nat) (els els' : list WeatherElement) :
  Forall2 (elem_ext n) els els' ->
  elements_ext n (build_elements els) (build_elements els').
Proof.
  intros Hf. apply foldl_insert_ext; [exact Hf|].
  intros k. rewrite !lookup_empty. exact I.
Qed.

Lemma param_ext (n : nat) (m m' : gmap string (list TimeSlot)) (k : string) (i : nat) :
  elements_ext n m m' -> i < n -> param m k i = param m' k i.
Proof.
  intros Hm Hi. specialize (Hm k). unfold param, dict_get, py_index.
  destruct (m !! k) as [ts|], (m' !! k) as [ts'|]; try contradiction; [|reflexivity].
  destruct Hm as [_ Hag]. rewrite !bind_of_ok, (Hag i Hi). reflexivity.
Qed.

Lemma emit_slots_ext (n : nat) (name : string) (m m' : gmap string (list TimeSlot))
    (ts : list TimeSlot) :
  elements_ext n m m' ->
  forall i, i + length ts <= n -> emit_slots name m i ts = emit_slots name m' i ts.
Proof.
  intros Hm. induction ts as [|t ts IH]; intros i Hi; [reflexivity|].
  cbn in Hi. cbn [emit_slots]. unfold emit_row.
  rewrite !(param_ext n m m' _ i Hm) by lia.
  destruct (param m' "PoP" i), (param m' "Wx" i), (param m' "CI" i),
           (param m' "MinT" i), (param m' "MaxT" i); cbn; try reflexivity.
  rewrite IH by lia. reflexivity.
Qed.

Lemma emit_location_ext (loc loc' : Location) :
  loc_ext loc loc' -> emit_location loc = emit_location loc'.
Proof.
  intros [Hname Hels]. apply build_elements_ext in Hels.
  unfold emit_location, dict_get. rewrite <- Hname.
  pose proof (Hels "PoP") as Hp.
  unfold pop_count in Hels.
  destruct (build_elements (weatherElement loc) !! "PoP") as [pops|] eqn:Hl,
           (build_elements (weatherElement loc') !! "PoP") as [pops'|];
    try contradiction; [|reflexivity].
  destruct Hp as [Heq _]. rewrite <- (Heq eq_refl), !bind_of_ok.
  apply (emit_slots_ext (length pops)); [exact Hels | lia].
Qed.

End Extension.

(* ------------------------------------------------------------------ *)
(** ** The claims *)

(** C9: for the response whose [records.location] is empty, [to_dataframe]
    does not return an empty table: [pd.DataFrame([])] has no columns, so the
    coercion of the startTime column raises [KeyError('startTime')]. *)
Theorem to_dataframe_empty_locations_fails {P : Pandas} :
  to_dataframe {| records_location := [] |} = Err (KeyError "startTime").
Proof. reflexivity. Qed.

(** C7: a location whose PoP sequence has [n] slots while another required
    element's sequence has fewer than [n] slots makes the emission of that
    location fail, and [to_dataframe] returns no table. *)
Theorem to_dataframe_short_element_fails {P : Pandas} (data : Response) (loc : Location) (k : string)
    (pops ts : list TimeSlot) :
  loc ∈ records_location data -> k ∈ ["Wx"; "CI"; "MinT"; "MaxT"] ->
  build_elements (weatherElement loc) !! "PoP" = Some pops ->
  build_elements (weatherElement loc) !! k = Some ts ->
  length ts < length pops ->
  is_err (emit_location loc) = true /\ is_err (to_dataframe data) = true.
Proof.
  intros Hin Hk Hp Hts Hlen.
  destruct (lookup_lt_is_Some_2 pops (length ts) Hlen) as [t Ht].
  assert (Hloc : is_err (emit_location loc) = true).
  { apply (emit_location_fails_at loc pops (length ts) t k Hp Ht).
    - apply elem_of_cons. right. exact Hk.
    - unfold param, dict_get, py_index. rewrite Hts, bind_of_ok.
      rewrite (proj2 (lookup_ge_None ts (length ts)) (le_n _)). reflexivity. }
  split; [exact Hloc | apply (to_dataframe_fails_with data loc Hin Hloc)].
Qed.

Lemma to_dataframe_short_element_fails_witness :
  is_err (emit_location (List.hd (fx_location "" [] []) (records_location fx_short_ci))) = true
  /\ is_err (to_dataframe fx_short_ci) = true.
Proof.
  apply (to_dataframe_short_element_fails fx_short_ci
           (List.hd (fx_location "" [] []) (records_location fx_short_ci)) "CI"
           [fx_morning; fx_evening] [fx_morning]).
  - cbn. apply list_elem_of_singleton. reflexivity.
  - apply elem_of_cons. right. apply elem_of_cons. left. reflexivity.
  - reflexivity.
  - reflexivity.
  - cbn. lia.
Defined.

(** C2: when [to_dataframe] returns a table, it has exactly as many rows as
    the PoP slots of all locations together: no row is dropped or merged. *)
Theorem to_dataframe_row_count {P : Pandas} (data : Response) (t : list ForecastRow) :
  to_dataframe data = Ok t -> length t = sum_list_with pop_count (records_location data).
Proof.
  intros H. apply to_dataframe_ok in H as (rows & starts & ends & Hrows & _ & Hs & He & ->).
  rewrite (Permutation_length (sort_values_perm _)).
  apply to_datetime_length in Hs. apply to_datetime_length in He.
  rewrite length_map in Hs, He.
  rewrite (build_table_length rows starts ends Hs He).
  - clear Hs He. unfold emit_rows in Hrows.
    apply emit_locations_ok in Hrows as (rss & Hf & ->).
    induction Hf as [|loc rs locs rss Hloc _ IH]; [reflexivity|].
    cbn [List.concat]. rewrite length_app, IH.
    change (sum_list_with pop_count (loc :: locs))
      with (pop_count loc + sum_list_with pop_count locs). f_equal.
    unfold emit_location, dict_get, pop_count in *.
    destruct (build_elements (weatherElement loc) !! "PoP") as [pops|] eqn:Hp;
      cbn in Hloc; [|discriminate].
    apply emit_slots_length in Hloc. exact Hloc.
Qed.

Lemma to_dataframe_row_count_witness :
  exists t, to_dataframe fx_two = Ok t /\
            length t = sum_list_with pop_count (records_location fx_two) /\ length t = 4.
Proof.
  eexists. split; [reflexivity|]. split.
  - apply to_dataframe_row_count. reflexivity.
  - reflexivity.
Defined.

(** C6, as stated, fails: location A lacks CI but its PoP axis is empty, so
    CI is never looked up and the transform returns B's row. *)
Lemma to_dataframe_missing_element_cx :
  build_elements (weatherElement (fx_location "A" ["PoP"; "Wx"; "MinT"; "MaxT"] [])) !! "CI"
    = None /\
  fx_location "A" ["PoP"; "Wx"; "MinT"; "MaxT"] [] ∈ records_location fx_missing_ci_no_slots /\
  is_err (to_dataframe fx_missing_ci_no_slots) = false.
Proof.
  split; [vm_compute; reflexivity|]. split; [apply elem_of_cons; left; reflexivity|].
  vm_compute. reflexivity.
Qed.

(** C6 (amended): if a location lacks a required element [k], and [k] is PoP
    or the location's PoP axis has a slot, then every lookup of [k] raises
    [KeyError k] (the element mapping itself never fails), the location's
    emission raises a [KeyError] or an [IndexError], and [to_dataframe]
    returns no table, failing with the emission's [KeyError] or
    [IndexError]; a location whose PoP axis is empty emits no row and raises
    nothing, whatever elements it lacks. *)
Theorem to_dataframe_missing_element_fails {P : Pandas} (data : Response) (loc : Location)
    (k : string) :
  loc ∈ records_location data -> k ∈ required_elements ->
  build_elements (weatherElement loc) !! k = None ->
  (k = "PoP" \/ 0 < pop_count loc) ->
  (forall i, param (build_elements (weatherElement loc)) k i = Err (KeyError k)) /\
  (exists e, emit_location loc = Err e /\ (e = IndexError \/ exists k', e = KeyError k')) /\
  (exists e, emit_rows data = Err e /\ to_dataframe data = Err e /\
             (e = IndexError \/ exists k', e = KeyError k')) /\
  (forall loc', build_elements (weatherElement loc') !! "PoP" = Some [] ->
                emit_location loc' = Ok []).
Proof.
  intros Hin Hk Hnone Hcase.
  assert (Hparam : forall i, param (build_elements (weatherElement loc)) k i = Err (KeyError k)).
  { intros i. unfold param, dict_get. rewrite Hnone. reflexivity. }
  assert (Hloc : is_err (emit_location loc) = true).
  { destruct (build_elements (weatherElement loc) !! "PoP") as [pops|] eqn:Hp.
    - destruct Hcase as [->|Hpos]; [congruence|].
      unfold pop_count in Hpos. rewrite Hp in Hpos. cbn in Hpos.
      destruct pops as [|t pops]; [cbn in Hpos; lia|].
      apply (emit_location_fails_at loc (t :: pops) 0 t k Hp eq_refl Hk).
      rewrite Hparam. reflexivity.
    - unfold emit_location, dict_get. rewrite Hp. reflexivity. }
  split; [exact Hparam|]. split.
  { destruct (emit_location loc) as [rs|e] eqn:He; [discriminate|].
    exists e. split; [reflexivity|]. eapply emit_location_err; exact He. }
  split.
  { pose proof (emit_locations_err _ _ Hin Hloc) as Hall.
    unfold to_dataframe, emit_rows.
    destruct (emit_locations (records_location data)) as [rows|e] eqn:Hrows;
      [discriminate|].
    exists e. split; [reflexivity|]. split; [reflexivity|].
    eapply emit_locations_err_kind; exact Hrows. }
  intros loc' Hp'. unfold emit_location, dict_get. rewrite Hp'. reflexivity.
Qed.

Lemma to_dataframe_missing_element_fails_witness :
  (forall i, param (build_elements (weatherElement
       (fx_location "A" ["PoP"; "Wx"; "MinT"; "MaxT"] [fx_morning]))) "CI" i
     = Err (KeyError "CI")) /\
  (exists e, emit_location (fx_location "A" ["PoP"; "Wx"; "MinT"; "MaxT"] [fx_morning])
               = Err e /\ (e = IndexError \/ exists k', e = KeyError k')) /\
  (exists e, emit_rows fx_missing_ci = Err e /\ to_dataframe fx_missing_ci = Err e /\
             (e = IndexError \/ exists k', e = KeyError k')) /\
  (forall loc', build_elements (weatherElement loc') !! "PoP" = Some [] ->
                emit_location loc' = Ok []).
Proof.
  apply (to_dataframe_missing_element_fails fx_missing_ci
           (fx_location "A" ["PoP"; "Wx"; "MinT"; "MaxT"] [fx_morning]) "CI").
  - apply list_elem_of_singleton. reflexivity.
  - repeat constructor.
  - vm_compute. reflexivity.
  - right. vm_compute. lia.
Defined.

(** C3: a table returned by [to_dataframe] is sorted by location, then by
    startTime (NaT last), and it is a stable sort of the coerced rows in
    emission order: it is a permutation of them, and the rows of any one
    (location, startTime) key appear in their emission order. *)
Theorem to_dataframe_sorted_stable {P : Pandas} (data : Response) (t : list ForecastRow) :
  to_dataframe data = Ok t ->
  Sorted (fun a b => key_le a b = true) t /\
  exists rows starts ends,
    emit_rows data = Ok rows /\
    to_datetime (map raw_startTime rows) = Ok starts /\
    to_datetime (map raw_endTime rows) = Ok ends /\
    Permutation t (build_table rows starts ends) /\
    forall a, List.filter (key_eqb a) t = List.filter (key_eqb a) (build_table rows starts ends).
Proof.
  intros H. apply to_dataframe_ok in H as (rows & starts & ends & Hrows & _ & Hs & He & ->).
  split; [apply sort_values_sorted|].
  exists rows, starts, ends. repeat split; auto.
  - apply sort_values_perm.
  - intros a. apply sort_values_stable.
Qed.

Lemma to_dataframe_sorted_stable_witness :
  exists t, to_dataframe fx_two = Ok t /\
  (Sorted (fun a b => key_le a b = true) t /\
   exists rows starts ends,
     emit_rows fx_two = Ok rows /\
     to_datetime (map raw_startTime rows) = Ok starts /\
     to_datetime (map raw_endTime rows) = Ok ends /\
     Permutation t (build_table rows starts ends) /\
     forall a, List.filter (key_eqb a) t = List.filter (key_eqb a) (build_table rows starts ends)).
Proof.
  eexists. split; [reflexivity|]. apply to_dataframe_sorted_stable. reflexivity.
Defined.

(** C1: if in every location each of the five elements has a sequence as
    long as PoP's, the emission (lines 36-55) succeeds and yields, location
    by location and for each index [i] of the PoP axis, exactly the row with
    the i-th PoP slot's startTime/endTime and the i-th [parameterName] of
    each of the five elements. *)
Theorem emit_rows_aligned (data : Response) :
  (forall loc, loc ∈ records_location data ->
     exists pops, build_elements (weatherElement loc) !! "PoP" = Some pops /\
       forall k, k ∈ required_elements ->
         exists ts, build_elements (weatherElement loc) !! k = Some ts /\
                    length ts = length pops) ->
  emit_rows data = Ok (aligned_rows data).
Proof.
  unfold emit_rows, aligned_rows. generalize (records_location data) as locs.
  induction locs as [|loc locs IH]; intros Hall; [reflexivity|].
  cbn [emit_locations map List.concat].
  assert (Hloc : emit_location loc = Ok (aligned_location loc)).
  { destruct (Hall loc (list_elem_of_here _ _)) as (pops & Hp & Hks).
    unfold emit_location, aligned_location, dict_get. rewrite Hp, bind_of_ok. cbn [default].
    rewrite emit_slots_aligned; [reflexivity|].
    intros k Hk. destruct (Hks k Hk) as (ts & Hts & Hlen).
    exists ts. split; [exact Hts | lia]. }
  rewrite Hloc, bind_of_ok, IH; [reflexivity|].
  intros l Hl. apply Hall. apply list_elem_of_further. exact Hl.
Qed.

Lemma emit_rows_aligned_witness :
  emit_rows fx_two = Ok (aligned_rows fx_two).
Proof.
  apply emit_rows_aligned. intros loc Hin.
  repeat (apply elem_of_cons in Hin as [->|Hin];
    [eexists; split; [reflexivity|]; intros k Hk;
     repeat (apply elem_of_cons in Hk as [->|Hk];
       [eexists; split; reflexivity|]);
     apply elem_of_nil in Hk as []|]).
  apply elem_of_nil in Hin as [].
Defined.

(** C4, as stated, fails twice: a malformed startTime in a Wx slot is never
    read, and an empty startTime in a PoP slot becomes NaT; in both cases a
    table is returned. *)
Lemma to_dataframe_bad_timestamp_cx :
  is_err (to_dataframe fx_bad_wx_time) = false /\
  exists t, to_dataframe fx_empty_start = Ok t /\ map start_ts t = [None].
Proof.
  split; [vm_compute; reflexivity|]. eexists. split; reflexivity.
Qed.

(** C4 (amended): when the row emission succeeds with at least one row, the
    columns given to [pd.to_datetime] are the startTime and the endTime
    strings of the PoP slots of all locations, in order; [to_dataframe]
    fails, with no table, exactly when [pd.to_datetime] raises on the
    startTime column, or on the endTime column once the startTime column
    is converted, and the error is that [ParseError]. *)
Theorem to_dataframe_bad_timestamp_fails {P : Pandas} (data : Response) (rows : list RawRow)
    (e : PyError) :
  emit_rows data = Ok rows -> rows <> [] ->
  map raw_startTime rows =
    List.concat (map (fun loc => map startTime (pop_slots loc)) (records_location data)) /\
  map raw_endTime rows =
    List.concat (map (fun loc => map endTime (pop_slots loc)) (records_location data)) /\
  (to_dataframe data = Err e <->
     to_datetime (map raw_startTime rows) = Err e \/
     (is_err (to_datetime (map raw_startTime rows)) = false /\
      to_datetime (map raw_endTime rows) = Err e)) /\
  (to_dataframe data = Err e -> exists s, e = ParseError s).
Proof.
  intros Hrows Hne.
  destruct (emit_rows_columns data rows Hrows) as [Hs He].
  assert (Hiff : to_dataframe data = Err e <->
     to_datetime (map raw_startTime rows) = Err e \/
     (is_err (to_datetime (map raw_startTime rows)) = false /\
      to_datetime (map raw_endTime rows) = Err e)).
  { unfold to_dataframe. rewrite Hrows, bind_of_ok.
    destruct rows as [|r rs]; [contradiction|].
    destruct (to_datetime (map raw_startTime (r :: rs))) as [starts|e1];
      cbn [mbind result_bind mret result_ret is_err].
    - destruct (to_datetime (map raw_endTime (r :: rs))) as [ends|e2];
        cbn [mbind result_bind mret result_ret is_err].
      + split; [intros H; discriminate H|]. intros [H|[_ H]]; discriminate H.
      + split; [intros [= ->]; right; split; reflexivity|].
        intros [H|[_ [= ->]]]; [discriminate H | reflexivity].
    - split; [intros [= ->]; left; reflexivity|].
      intros [[= ->]|[H _]]; [reflexivity | discriminate H]. }
  split; [exact Hs|]. split; [exact He|]. split; [exact Hiff|].
  intros H. apply Hiff in H as [H|[_ H]]; eapply to_datetime_error; exact H.
Qed.

Lemma to_dataframe_bad_timestamp_fails_witness :
  to_dataframe fx_bad_pop_time = Err (ParseError "garbage").
Proof.
  destruct (to_dataframe_bad_timestamp_fails fx_bad_pop_time (aligned_rows fx_bad_pop_time)
              (ParseError "garbage")) as (_ & _ & Hiff & _).
  - vm_compute. reflexivity.
  - vm_compute. discriminate.
  - apply Hiff. left. vm_compute. reflexivity.
Defined.

(** C5: a PoP, MinT or MaxT value that [pd.to_numeric] cannot convert
    (such as "NA") raises nothing: whenever the emission succeeds with rows
    and both timestamp columns convert (conditions that do not look at the
    numeric values), the table is returned, and the row's counterpart is in
    it with that field missing, its location, Wx and CI as emitted, its
    timestamps the converted ones of its position, and each numeric field
    the converted value of its position. *)
Theorem to_dataframe_numeric_coercion_tolerant {P : Pandas} (data : Response)
    (rows : list RawRow) (starts ends : list (option Z)) (i : nat) (row : RawRow)
    (f : NumField) :
  emit_rows data = Ok rows -> rows <> [] ->
  to_datetime (map raw_startTime rows) = Ok starts ->
  to_datetime (map raw_endTime rows) = Ok ends ->
  rows !! i = Some row -> to_numeric [raw_num f row] = [None] ->
  exists t out, to_dataframe data = Ok t /\ In out t /\
    row_num f out = None /\
    location out = raw_location row /\ Wx out = raw_Wx row /\ CI out = raw_CI row /\
    starts !! i = Some (start_ts out) /\ ends !! i = Some (end_ts out) /\
    (forall g, to_numeric (map (raw_num g) rows) !! i = Some (row_num g out)).
Proof.
  intros Hrows Hne Hs He Hi Hnum.
  pose proof (to_datetime_length _ _ Hs) as Ls. pose proof (to_datetime_length _ _ He) as Le.
  rewrite length_map in Ls, Le.
  destruct (build_table_lookup rows starts ends i row Ls Le Hi)
    as (out & Hout & Hl & Hw & Hc & Hst & Hen & Hg).
  exists (sort_values (build_table rows starts ends)), out.
  split.
  - unfold to_dataframe. rewrite Hrows, bind_of_ok.
    destruct rows as [|r rs]; [contradiction|]. rewrite Hs, bind_of_ok, He. reflexivity.
  - split.
    { apply (Permutation_in _ (Permutation_sym (sort_values_perm _))).
      apply list_elem_of_In. eapply list_elem_of_lookup_2; exact Hout. }
    split; [|repeat split; assumption].
    assert (Hcol : map (raw_num f) rows !! i = Some (raw_num f row))
      by (rewrite list_lookup_fmap, Hi; reflexivity).
    apply (to_numeric_nan _ _ _ Hcol) in Hnum. rewrite (Hg f) in Hnum.
    injection Hnum as ->. reflexivity.
Qed.

Lemma to_dataframe_numeric_coercion_tolerant_witness :
  exists t out, to_dataframe fx_two = Ok t /\ In out t /\
    row_num FPoP out = None /\
    location out = "Taipei" /\ Wx out = "NA" /\ CI out = "NA" /\
    Some (Some 1704132000000000000%Z) = Some (start_ts out) /\
    Some (Some 1704175200000000000%Z) = Some (end_ts out) /\
    (forall g, to_numeric (map (raw_num g) (aligned_rows fx_two)) !! 0 = Some (row_num g out)).
Proof.
  apply (to_dataframe_numeric_coercion_tolerant fx_two (aligned_rows fx_two)
           [Some 1704132000000000000%Z; Some 1704088800000000000%Z;
            Some 1704088800000000000%Z; Some 1704132000000000000%Z]
           [Some 1704175200000000000%Z; Some 1704132000000000000%Z;
            Some 1704132000000000000%Z; Some 1704175200000000000%Z]
           0
           {| raw_location := "Taipei"; raw_startTime := "2024-01-01 18:00:00";
              raw_endTime := "2024-01-02 06:00:00"; raw_PoP := "NA"; raw_Wx := "NA";
              raw_CI := "NA"; raw_MinT := "NA"; raw_MaxT := "NA" |} FPoP).
  - vm_compute. reflexivity.
  - vm_compute. discriminate.
  - vm_compute. reflexivity.
  - vm_compute. reflexivity.
  - vm_compute. reflexivity.
  - reflexivity.
Defined.

(** C8: when [CWA_KEY] is absent from the environment or empty, the run
    shows the page header (config, title, caption) and the configuration
    error, then stops: [fetch_forecast] is never called, no request is
    sent, no dashboard widget is shown, and the cache is untouched. *)
Theorem run_script_without_key_halts {P : Pandas} (env : gmap string string)
    (net : string -> option Response) (now : Q) (choice : option string)
    (cache : option (Response * Q)) :
  env !! "CWA_KEY" = None \/ env !! "CWA_KEY" = Some "" ->
  run_script env net now choice cache = ([SetPageConfig; Title; Caption; StError MissingKey], cache) /\
  (forall key, HttpGet key ∉ fst (run_script env net now choice cache)).
Proof.
  intros Hkey.
  assert (Hrun : run_script env net now choice cache =
                 ([SetPageConfig; Title; Caption; StError MissingKey], cache)).
  { unfold run_script. destruct Hkey as [-> | ->]; reflexivity. }
  split; [exact Hrun|]. intros key. rewrite Hrun. cbn [fst]. intros Hin.
  repeat (apply elem_of_cons in Hin as [Hin|Hin]; [discriminate|]).
  apply elem_of_nil in Hin. exact Hin.
Qed.

Lemma run_script_without_key_halts_witness :
  run_script ∅ fx_net 0 None None = ([SetPageConfig; Title; Caption; StError MissingKey], None) /\
  (forall key, HttpGet key ∉ fst (run_script ∅ fx_net 0 None None)).
Proof.
  apply run_script_without_key_halts. left. apply lookup_empty.
Defined.

(** C10: two responses that differ only in slots of non-PoP elements at
    indices at or beyond the length of the location's PoP sequence give the
    same result of [to_dataframe], table or error. *)
Theorem to_dataframe_ignores_slots_beyond_pop {P : Pandas} (data data' : Response) :
  Forall2 loc_ext (records_location data) (records_location data') ->
  to_dataframe data = to_dataframe data'.
Proof.
  intros Hf. unfold to_dataframe, emit_rows.
  replace (emit_locations (records_location data'))
    with (emit_locations (records_location data)); [reflexivity|].
  induction Hf as [|loc loc' locs locs' Hloc _ IH]; [reflexivity|].
  cbn [emit_locations]. rewrite (emit_location_ext loc loc' Hloc), IH. reflexivity.
Qed.

Lemma to_dataframe_ignores_slots_beyond_pop_witness :
  to_dataframe fx_two = to_dataframe fx_two_extended.
Proof.
  apply to_dataframe_ignores_slots_beyond_pop. cbn.
  repeat constructor; vm_compute; try reflexivity;
    intros [|[|i]] Hi; try reflexivity; lia.
Defined.

(* ------------------------------------------------------------------ *)
(** ** Further properties of the script *)

Section Script.

Context {PD : Pandas}.

Lemma assemble_locations (rows : list RawRow) (starts ends : list (option Z))
    (pops mints maxts : list (option Num)) :
  length starts = length rows -> length ends = length rows ->
  length pops = length rows -> length mints = length rows -> length maxts = length rows ->
  map location (assemble rows starts ends pops mints maxts) = map raw_location rows.
Proof.
  revert starts ends pops mints maxts.
  induction rows as [|r0 rows IH];
    intros [|s0 ss] [|e0 es] [|p0 ps] [|a0 mas] [|b0 mbs]; cbn; intros; try lia;
    try reflexivity.
  f_equal. apply IH; lia.
Qed.

Lemma build_table_locations (rows : list RawRow) (starts ends : list (option Z)) :
  length starts = length rows -> length ends = length rows ->
  map location (build_table rows starts ends) = map raw_location rows.
Proof.
  intros Hs He. unfold build_table.
  apply assemble_locations; rewrite ?to_numeric_length, ?length_map;
    first [reflexivity | assumption].
Qed.

Lemma to_dataframe_ok_lengths (data : Response) (t : list ForecastRow) :
  to_dataframe data = Ok t ->
  exists rows starts ends,
    emit_rows data = Ok rows /\ rows <> [] /\
    length starts = length rows /\ length ends = length rows /\
    Permutation t (build_table rows starts ends).
Proof.
  intros H. apply to_dataframe_ok in H as (rows & starts & ends & Hrows & Hne & Hs & He & ->).
  apply to_datetime_length in Hs. apply to_datetime_length in He.
  rewrite length_map in Hs, He.
  exists rows, starts, ends. repeat split; auto. apply sort_values_perm.
Qed.

Lemma table_nonempty (data : Response) (t : list ForecastRow) :
  to_dataframe data = Ok t -> t <> [].
Proof.
  intros H. apply to_dataframe_ok_lengths in H as (rows & starts & ends & _ & Hne & Hs & He & Hp).
  intros ->. apply Permutation_length in Hp. rewrite build_table_length in Hp by assumption.
  destruct rows; [contradiction | discriminate].
Qed.

Lemma dashboard_no_http (choice : option string) (df : list ForecastRow) :
  List.filter is_http (dashboard choice df) = [].
Proof. unfold dashboard. repeat case_match; reflexivity. Qed.

Lemma unique_strings_spec (seen l : list string) (x : string) :
  In x (unique_strings seen l) <-> In x l /\ ~ In x seen.
Proof.
  revert seen. induction l as [|y l IH]; intros seen; cbn; [tauto|].
  destruct (existsb (String.eqb y) seen) eqn:Hy.
  - rewrite IH. apply existsb_exists in Hy as (z & Hz & Hyz).
    apply String.eqb_eq in Hyz as <-. split; [tauto|].
    intros [[<-|Hl] Hn]; [contradiction | tauto].
  - cbn. rewrite IH. cbn. split.
    + intros [Hyx|[Hl Hn]]; [subst y|tauto]. split; [tauto|].
      intros Hin. assert (existsb (String.eqb x) seen = true) by
        (apply existsb_exists; exists x; split; [exact Hin | apply String.eqb_refl]).
      congruence.
    + intros [[Hyx|Hl] Hn]; [left; exact Hyx|].
      destruct (String.eqb_spec y x); [left; assumption | right; split; [exact Hl|]].
      intros [Hyx|Hs]; [congruence | contradiction].
Qed.

Lemma unique_strings_nodup (seen l : list string) : NoDup (unique_strings seen l).
Proof.
  revert seen. induction l as [|y l IH]; intros seen; cbn; [constructor|].
  destruct (existsb (String.eqb y) seen); [apply IH|].
  constructor; [|apply IH]. rewrite list_elem_of_In, unique_strings_spec. cbn. tauto.
Qed.

Lemma key_le_location (a b : ForecastRow) :
  key_le a b = true -> String.leb (location a) (location b) = true.
Proof.
  unfold key_le. destruct (String.eqb_spec (location a) (location b)) as [->|_]; [|auto].
  intros _. destruct (String.leb_total (location b) (location b)) as [H|H]; exact H.
Qed.

Lemma to_dataframe_strongly_sorted (data : Response) (t : list ForecastRow) :
  to_dataframe data = Ok t -> StronglySorted (fun a b => key_le a b = true) t.
Proof.
  intros H. apply to_dataframe_ok in H as (rows & starts & ends & _ & _ & _ & _ & ->).
  apply Sorted_StronglySorted; [|apply sort_values_sorted].
  intros a b c. apply key_le_trans.
Qed.

Lemma emit_slots_names (name : string) (m : gmap string (list TimeSlot)) (ts : list TimeSlot) :
  forall (i : nat) (rows : list RawRow),
  emit_slots name m i ts = Ok rows -> Forall (fun r => raw_location r = name) rows.
Proof.
  induction ts as [|t ts IH]; intros i rows H; cbn in H.
  - injection H as <-. constructor.
  - apply bind_ok in H as (row & Ha & H). apply bind_ok in H as (rest & Ha0 & H).
    cbn in H. injection H as <-.
    destruct (emit_row_ok _ _ _ _ _ Ha) as (_ & Hn & _).
    constructor; [exact Hn | eapply IH; eauto].
Qed.

Lemma emit_location_rows (loc : Location) (rs : list RawRow) :
  emit_location loc = Ok rs ->
  length rs = pop_count loc /\ Forall (fun r => raw_location r = locationName loc) rs.
Proof.
  unfold emit_location, dict_get, pop_count. intros H.
  destruct (build_elements (weatherElement loc) !! "PoP") as [pops|]; [|discriminate].
  rewrite bind_of_ok in H. split; [eapply emit_slots_length; eauto | eapply emit_slots_names; eauto].
Qed.

Lemma strongly_sorted_city (c : string) (l : list ForecastRow) :
  StronglySorted (fun a b => key_le a b = true) l ->
  StronglySorted (fun a b => ts_le (start_ts a) (start_ts b) = true)
    (List.filter (fun r => String.eqb (location r) c) l).
Proof.
  induction 1 as [|a l Hs IH Hall]; cbn; [constructor|].
  destruct (String.eqb_spec (location a) c) as [Ha|Ha]; [|exact IH].
  constructor; [exact IH|].
  apply Forall_forall. intros b Hb. apply list_elem_of_In, filter_In in Hb as [Hb Hbc].
  apply String.eqb_eq in Hbc.
  pose proof (proj1 (Forall_forall _ _) Hall b (proj2 (list_elem_of_In _ _) Hb)) as Hab.
  unfold key_le in Hab. rewrite Ha, Hbc, String.eqb_refl in Hab. exact Hab.
Qed.

Lemma selectbox_in (opts : list string) (choice : option string) (c : string) :
  selectbox opts choice = Some c -> In c opts.
Proof.
  unfold selectbox.
  assert (Hhead : head opts = Some c -> In c opts)
    by (destruct opts; cbn; [discriminate | intros [= <-]; left; reflexivity]).
  destruct choice as [c'|]; [|exact Hhead].
  destruct (existsb (String.eqb c') opts) eqn:E; [|exact Hhead].
  intros [= <-]. apply existsb_exists in E as (x & Hx & Hcx).
  apply String.eqb_eq in Hcx. subst x. exact Hx.
Qed.

Lemma selectbox_some (opts : list string) (choice : option string) :
  opts <> [] -> exists c, selectbox opts choice = Some c.
Proof.
  unfold selectbox. destruct opts as [|o os]; [contradiction|]. intros _.
  destruct choice as [c|]; [destruct (existsb (String.eqb c) (o :: os))|]; eauto.
Qed.

Lemma city_rows_location (city : option string) (t : list ForecastRow) (r : ForecastRow) :
  In r (city_rows city t) -> city = Some (location r).
Proof.
  destruct city as [c|]; cbn; [|contradiction].
  intros Hin. apply filter_In in Hin as [_ E]. apply String.eqb_eq in E. rewrite E. reflexivity.
Qed.

Lemma city_rows_sorted (city : option string) (t : list ForecastRow) :
  StronglySorted (fun a b => key_le a b = true) t ->
  StronglySorted (fun a b => ts_le (start_ts a) (start_ts b) = true) (city_rows city t).
Proof. destruct city as [c|]; cbn; [apply strongly_sorted_city | constructor]. Qed.

Lemma city_rows_nonempty (c : string) (t : list ForecastRow) :
  In c (unique_strings [] (map location t)) -> city_rows (Some c) t <> [].
Proof.
  intros Hc. apply unique_strings_spec in Hc as [Hc _]. apply in_map_iff in Hc as (r & Hr & Hin).
  cbn. intros E. assert (Hf : In r (List.filter (fun r => String.eqb (location r) c) t))
    by (apply filter_In; split; [exact Hin | apply String.eqb_eq; exact Hr]).
  rewrite E in Hf. contradiction.
Qed.

(** In rows sorted by startTime with NaT last, the first start is NaT only
    when all are. *)
Lemma existsb_start_sorted (r : ForecastRow) (l : list ForecastRow) :
  StronglySorted (fun a b => ts_le (start_ts a) (start_ts b) = true) (r :: l) ->
  existsb (fun x => notna (start_ts x)) (r :: l) = notna (start_ts r).
Proof.
  intros Hs. cbn. destruct (start_ts r) eqn:Er; [reflexivity|]. cbn.
  apply StronglySorted_inv in Hs as [_ Hall].
  apply not_true_iff_false. intros Hex. apply existsb_exists in Hex as (b & Hb & Hsb).
  pose proof (proj1 (Forall_forall _ _) Hall b (proj2 (list_elem_of_In _ _) Hb)) as Hab.
  cbn in Hab. rewrite Er in Hab. destruct (start_ts b); discriminate.
Qed.

Lemma run_script_report (env : gmap string string) (net : string -> option Response)
    (now : Q) (choice : option string) (cache : option (Response * Q)) :
  run_script env net now choice cache =
  let key := default "" (env !! "CWA_KEY") in
  if String.eqb key "" then ([SetPageConfig; Title; Caption; StError MissingKey], cache)
  else let '(evs, res, cache') := fetch_forecast key net now cache in
       ([SetPageConfig; Title; Caption; Info] ++ evs ++ report choice res, cache').
Proof. reflexivity. Qed.

Lemma report_no_http (choice : option string) (res : option Response) :
  List.filter is_http (report choice res) = [].
Proof.
  destruct res as [raw|]; [|reflexivity]. cbn.
  destruct (to_dataframe raw); [apply dashboard_no_http | reflexivity].
Qed.

End Script.

Lemma filter_is_http_nil (l : list Event) (k : string) :
  List.filter is_http l = [] -> ~ In (HttpGet k) l.
Proof.
  intros H Hin. assert (Hf : In (HttpGet k) (List.filter is_http l))
    by (apply filter_In; split; [exact Hin | reflexivity]).
  rewrite H in Hf. contradiction.
Qed.

Section Tables.

Lemma forall2_in_r {A B} (R : A -> B -> Prop) (l1 : list A) (l2 : list B) (y : B) :
  Forall2 R l1 l2 -> In y l2 -> exists x, In x l1 /\ R x y.
Proof.
  induction 1 as [|a b l1 l2 Hab _ IH]; cbn; [contradiction|].
  intros [->|Hin]; [eauto|]. destruct (IH Hin) as (x & ? & ?); eauto.
Qed.

Lemma foldl_insert_last (els : list WeatherElement) (m : gmap string (list TimeSlot))
    (k : string) :
  foldl (fun m el => <[elementName el := time el]> m) m els !! k =
  match last (List.filter (fun e => String.eqb (elementName e) k) els) with
  | Some e => Some (time e)
  | None => m !! k
  end.
Proof.
  revert m. induction els as [|e els IH]; intros m; cbn [foldl List.filter]; [reflexivity|].
  rewrite IH. destruct (String.eqb_spec (elementName e) k) as [<-|Hne].
  - rewrite last_cons. destruct (last _); [reflexivity|]. apply lookup_insert_eq.
  - destruct (last _); [reflexivity|]. apply lookup_insert_ne. exact Hne.
Qed.

End Tables.

(* ------------------------------------------------------------------ *)
(** ** Extra properties *)

(** X1: with [CWA_KEY] set, a run on an empty cache at time [now] sends one
    request with the key and caches the response with [now]; a later run at
    [now'] with any upstream and any pick shows the cached response without
    a request while [now' - now < 900] seconds (also when [to_dataframe]
    rejects the response), and from 900 seconds on requests again and
    caches the new answer, or nothing if the request fails. *)
Theorem run_script_second_run_uses_cache {P : Pandas} (env : gmap string string)
    (net net' : string -> option Response) (key : string) (data : Response)
    (now now' : Q) (choice choice' : option string) :
  env !! "CWA_KEY" = Some key -> key <> "" -> net key = Some data ->
  run_script env net now choice None =
    ([SetPageConfig; Title; Caption; Info; HttpGet key] ++ report choice (Some data),
     Some (data, now)) /\
  ((now' - now < 900)%Q ->
   run_script env net' now' choice' (Some (data, now)) =
     ([SetPageConfig; Title; Caption; Info] ++ report choice' (Some data), Some (data, now))) /\
  ((900 <= now' - now)%Q ->
   run_script env net' now' choice' (Some (data, now)) =
     ([SetPageConfig; Title; Caption; Info; HttpGet key] ++ report choice' (net' key),
      match net' key with Some d => Some (d, now') | None => None end)).
Proof.
  intros Henv Hkey Hnet. unfold run_script, fetch_forecast. rewrite Henv.
  change (default "" (Some key)) with key. cbv zeta.
  destruct (String.eqb_spec key "") as [|_]; [contradiction|]. rewrite Hnet.
  split; [reflexivity|]. split.
  - intros Hlt. destruct (Qle_bool 900 (now' - now)) eqn:E; [|reflexivity].
    apply Qle_bool_iff in E. exfalso. exact (Qlt_not_le _ _ Hlt E).
  - intros Hge. rewrite (proj2 (Qle_bool_iff _ _) Hge).
    destruct (net' key); reflexivity.
Qed.

Lemma run_script_second_run_uses_cache_witness :
  run_script fx_env fx_net 0%Q None None =
    ([SetPageConfig; Title; Caption; Info; HttpGet "KEY"] ++ report None (Some fx_two),
     Some (fx_two, 0%Q)) /\
  ((600 - 0 < 900)%Q ->
   run_script fx_env fx_net_down 600%Q (Some "Hualien") (Some (fx_two, 0%Q)) =
     ([SetPageConfig; Title; Caption; Info] ++ report (Some "Hualien") (Some fx_two),
      Some (fx_two, 0%Q))) /\
  ((900 <= 600 - 0)%Q ->
   run_script fx_env fx_net_down 600%Q (Some "Hualien") (Some (fx_two, 0%Q)) =
     ([SetPageConfig; Title; Caption; Info; HttpGet "KEY"] ++
        report (Some "Hualien") (fx_net_down "KEY"),
      match fx_net_down "KEY" with Some d => Some (d, 600%Q) | None => None end)).
Proof.
  apply run_script_second_run_uses_cache.
  - vm_compute. reflexivity.
  - discriminate.
  - reflexivity.
Defined.

(** X2: with [CWA_KEY] set and an empty cache, a failed request ends the run
    with the load error right after the request; no dashboard is shown and
    nothing is cached, so the next run requests again. *)
Theorem run_script_fetch_failure {P : Pandas} (env : gmap string string)
    (net : string -> option Response) (key : string) (now : Q) (choice : option string) :
  env !! "CWA_KEY" = Some key -> key <> "" -> net key = None ->
  run_script env net now choice None =
    ([SetPageConfig; Title; Caption; Info; HttpGet key; StError (LoadFailed FetchFailed)], None).
Proof.
  intros Henv Hkey Hnet. unfold run_script, fetch_forecast. rewrite Henv.
  change (default "" (Some key)) with key. cbv zeta.
  destruct (String.eqb_spec key "") as [|_]; [contradiction|]. rewrite Hnet. reflexivity.
Qed.

Lemma run_script_fetch_failure_witness :
  run_script fx_env fx_net_down 0%Q None None =
    ([SetPageConfig; Title; Caption; Info; HttpGet "KEY"; StError (LoadFailed FetchFailed)], None).
Proof.
  apply run_script_fetch_failure; [vm_compute; reflexivity | discriminate | reflexivity].
Defined.

(** X3: every run sends at most one request, and only with a non-empty
    [CWA_KEY] from the environment and no cache entry that serves the run's
    time. *)
Theorem run_script_requests {P : Pandas} (env : gmap string string)
    (net : string -> option Response) (now : Q) (choice : option string)
    (cache : option (Response * Q)) :
  length (List.filter is_http (fst (run_script env net now choice cache))) <= 1 /\
  forall k, In (HttpGet k) (fst (run_script env net now choice cache)) ->
    env !! "CWA_KEY" = Some k /\ k <> "" /\ cache_valid now cache = false.
Proof.
  rewrite run_script_report.
  destruct (env !! "CWA_KEY") as [key|] eqn:Henv;
    [change (default "" (Some key)) with key | change (default "" None) with ""]; cbv zeta;
    [|split; [cbn; lia | intros k Hin; cbn in Hin; intuition discriminate]].
  destruct (String.eqb_spec key "") as [Hz|Hz].
  { split; [cbn; lia | intros k Hin; cbn in Hin; intuition discriminate]. }
  unfold fetch_forecast, cache_valid.
  destruct cache as [[c stored]|];
    [destruct (Qle_bool 900 (now - stored)) eqn:Hq; [destruct (net key) as [d|]|]
    |destruct (net key) as [d|]];
    cbn [fst app]; split;
    try (cbn [List.filter is_http]; rewrite report_no_http; cbn; lia);
    intros k Hin;
    repeat (destruct Hin as [H|Hin]; [discriminate H|]);
    try (destruct Hin as [H|Hin]; [injection H as <-; rewrite ?Hq; auto|]);
    exfalso; exact (filter_is_http_nil _ k (report_no_http _ _) Hin).
Qed.

(** X4: the city options of line 80 are duplicate-free and are exactly the
    locations that occur in the table. *)
Theorem dashboard_options (df : list ForecastRow) :
  NoDup (unique_strings [] (map location df)) /\
  forall x, In x (unique_strings [] (map location df)) <-> exists r, In r df /\ location r = x.
Proof.
  split; [apply unique_strings_nodup|]. intros x.
  rewrite unique_strings_spec, in_map_iff. cbn. firstorder.
Qed.

(** X5: [to_dataframe] never returns an empty table. *)
Theorem to_dataframe_nonempty {P : Pandas} (data : Response) (t : list ForecastRow) :
  to_dataframe data = Ok t -> t <> [].
Proof. apply table_nonempty. Qed.

Lemma to_dataframe_nonempty_witness :
  exists t, to_dataframe fx_two = Ok t /\ t <> [].
Proof. eexists. split; [reflexivity|]. apply (to_dataframe_nonempty fx_two). reflexivity. Defined.

(** X6: on a table returned by [to_dataframe], whatever the user picks, the
    selected city has rows, so the [if not sub.empty] branch of line 88 is
    always taken.  The run shows the selectbox and the city header; then,
    when some row of the city has a startTime and its last row has an
    endTime, the time range, the note, both charts and the table; otherwise
    [t0] or [t1] is NaT and the format of line 92 raises, ending the run. *)
Theorem dashboard_of_table {P : Pandas} (data : Response) (t : list ForecastRow)
    (choice : option string) :
  to_dataframe data = Ok t ->
  let opts := unique_strings [] (map location t) in
  let sub := city_rows (selectbox opts choice) t in
  sub <> [] /\
  dashboard choice t =
    [Selectbox opts; Subheader] ++
    if existsb (fun r => notna (start_ts r)) sub &&
       match last sub with Some r => notna (end_ts r) | None => false end
    then [Write; Write; Subheader; LineChart; Subheader; BarChart; Subheader; DataFrameView]
    else [Raised].
Proof.
  intros H opts sub.
  pose proof (table_nonempty _ _ H) as Hne.
  pose proof (to_dataframe_strongly_sorted _ _ H) as Hss.
  assert (Hopts : opts <> []).
  { unfold opts. destruct t as [|r0 rest]; [contradiction|]. cbn. discriminate. }
  assert (Hsub : sub <> []).
  { unfold sub. destruct (selectbox_some opts choice Hopts) as [c Hc]. rewrite Hc.
    apply city_rows_nonempty. exact (selectbox_in _ _ _ Hc). }
  pose proof (city_rows_sorted (selectbox opts choice) t Hss) as Hs. fold sub in Hs.
  split; [exact Hsub|].
  unfold dashboard. fold opts. fold sub.
  destruct sub as [|r rest]; [contradiction|].
  rewrite (existsb_start_sorted r rest Hs).
  destruct (start_ts r), (last (r :: rest)) as [r'|]; try destruct (end_ts r'); reflexivity.
Qed.

Lemma dashboard_of_table_witness :
  exists t, to_dataframe fx_two = Ok t /\
  let opts := unique_strings [] (map location t) in
  let sub := city_rows (selectbox opts (Some "Taipei")) t in
  sub <> [] /\
  dashboard (Some "Taipei") t =
    [Selectbox opts; Subheader] ++
    if existsb (fun r => notna (start_ts r)) sub &&
       match last sub with Some r => notna (end_ts r) | None => false end
    then [Write; Write; Subheader; LineChart; Subheader; BarChart; Subheader; DataFrameView]
    else [Raised].
Proof.
  eexists. split; [reflexivity|]. apply (dashboard_of_table fx_two). reflexivity.
Defined.

(** X7: the city selected by default is a location of the table that is not
    above any other in the string order: the alphabetically first. *)
Theorem selected_city_smallest {P : Pandas} (data : Response) (t : list ForecastRow) :
  to_dataframe data = Ok t ->
  exists city, selected_city t = Some city /\ In city (map location t) /\
    forall r, In r t -> String.leb city (location r) = true.
Proof.
  intros H. pose proof (to_dataframe_strongly_sorted _ _ H) as Hs.
  apply table_nonempty in H.
  destruct t as [|r rest]; [contradiction|].
  exists (location r). split; [reflexivity|]. split; [left; reflexivity|].
  apply StronglySorted_inv in Hs as [_ Hall].
  intros r' [<-|Hin].
  - destruct (String.leb_total (location r) (location r)) as [E|E]; exact E.
  - apply key_le_location. apply (proj1 (Forall_forall _ _) Hall r'). apply list_elem_of_In, Hin.
Qed.

Lemma selected_city_smallest_witness :
  exists t, to_dataframe fx_two = Ok t /\
  exists city, selected_city t = Some city /\ In city (map location t) /\
    forall r, In r t -> String.leb city (location r) = true.
Proof. eexists. split; [reflexivity|]. apply (selected_city_smallest fx_two). reflexivity. Defined.

(** X8: the cities offered by the selectbox are exactly the names of the
    response's locations that have at least one PoP slot. *)
Theorem to_dataframe_cities {P : Pandas} (data : Response) (t : list ForecastRow) :
  to_dataframe data = Ok t ->
  forall name, In name (unique_strings [] (map location t)) <->
    exists loc, In loc (records_location data) /\ locationName loc = name /\ 0 < pop_count loc.
Proof.
  intros H name.
  apply to_dataframe_ok_lengths in H as (rows & starts & ends & Hrows & _ & Hs & He & Hp).
  rewrite unique_strings_spec.
  assert (E : In name (map location t) <-> In name (map raw_location rows)).
  { rewrite <- (build_table_locations rows starts ends Hs He).
    split; apply Permutation_in; apply Permutation_map; [exact Hp | symmetry; exact Hp]. }
  rewrite E. unfold emit_rows in Hrows. apply emit_locations_ok in Hrows as (rss & Hf & ->).
  split.
  - intros [Hin _]. apply in_map_iff in Hin as (r & Hr & Hin).
    apply in_concat in Hin as (rs & Hrs & Hrin).
    destruct (forall2_in_r _ _ _ _ Hf Hrs) as (loc & Hloc & Hem).
    apply emit_location_rows in Hem as [Hlen Hall].
    exists loc. split; [exact Hloc|]. split.
    + rewrite <- Hr. symmetry.
      apply (proj1 (Forall_forall _ _) Hall r), list_elem_of_In, Hrin.
    + rewrite <- Hlen. destruct rs; [contradiction | cbn; lia].
  - intros (loc & Hloc & <- & Hpos). split; [|cbn; tauto].
    destruct (forall2_in_l _ _ _ _ Hf Hloc) as (rs & Hrs & Hem).
    apply emit_location_rows in Hem as [Hlen Hall].
    destruct rs as [|r rs']; [cbn in Hlen; lia|].
    apply in_map_iff. exists r. split.
    + apply Forall_inv in Hall. exact Hall.
    + apply in_concat. exists (r :: rs'). split; [exact Hrs | left; reflexivity].
Qed.

Lemma to_dataframe_cities_witness :
  exists t, to_dataframe fx_two = Ok t /\
  forall name, In name (unique_strings [] (map location t)) <->
    exists loc, In loc (records_location fx_two) /\ locationName loc = name /\ 0 < pop_count loc.
Proof. eexists. split; [reflexivity|]. apply (to_dataframe_cities fx_two). reflexivity. Defined.

(** X9: when a location lists several elements with the same name, the
    element mapping of line 40 keeps the last of them; a name that no
    element has is absent. *)
Theorem build_elements_last (els : list WeatherElement) (k : string) :
  build_elements els !! k =
  option_map time (last (List.filter (fun e => String.eqb (elementName e) k) els)).
Proof.
  unfold build_elements. rewrite foldl_insert_last.
  destruct (last _); reflexivity.
Qed.

(** X10: whatever the user picks, the rows shown are those of the selected
    city and are in ascending startTime order (NaT last), so
    [t0 = sub.iloc[0]["startTime"]] of line 90 is the city's earliest
    start. *)
Theorem city_rows_chronological {P : Pandas} (data : Response) (t : list ForecastRow)
    (choice : option string) :
  to_dataframe data = Ok t ->
  let city := selectbox (unique_strings [] (map location t)) choice in
  (forall r, In r (city_rows city t) -> city = Some (location r)) /\
  StronglySorted (fun a b => ts_le (start_ts a) (start_ts b) = true) (city_rows city t).
Proof.
  intros H city. split.
  - intros r. apply city_rows_location.
  - apply city_rows_sorted, (to_dataframe_strongly_sorted _ _ H).
Qed.

Lemma city_rows_chronological_witness :
  exists t, to_dataframe fx_two = Ok t /\
  let city := selectbox (unique_strings [] (map location t)) (Some "Taipei") in
  (forall r, In r (city_rows city t) -> city = Some (location r)) /\
  StronglySorted (fun a b => ts_le (start_ts a) (start_ts b) = true) (city_rows city t).
Proof.
  eexists. split; [reflexivity|]. apply (city_rows_chronological fx_two). reflexivity.
Defined.
